(** * Headline-sentiment recommendation engine: a shallow embedding

    This development embeds the signal aggregation and ranking pipeline of
    [investment_agent.py] together with the search adapter of
    [tools/google_search_tools.py], and proves or refutes the properties the
    specification states about them.

    Conventions of the embedding.
    - Python values that cross the adapter boundary (decoded JSON bodies,
      article titles, the company-lookup response) are values of [PyVal].
    - Python exceptions that are instances of [Exception] are values of
      [PyExc]; code that may raise returns [result A].
    - Text is ASCII text: [str.lower] is modelled on the 26 Latin capitals,
      which is what the (all lower-case ASCII) lexicons can observe.
    - [int / int] produces the binary64 float nearest to the exact quotient.
      The embedding keeps the exact quotient, a rational of [Q].  Rounding to
      nearest is monotone and fixes [-1], [0] and [1], so signs, bounds and
      the weak order of scores are those of the exact quotients; two distinct
      quotients in [[-1, 1]] with denominators below [2^26] differ by more
      than [2^-52] and round to distinct floats, so ties are the same too.
    - The adapters answer as functions of their arguments: asking twice
      gives the same response. *)

From Stdlib Require Import List String Ascii Bool ZArith QArith Qminmax Lia.
From Stdlib Require Import Sorting.Sorted Sorting.Permutation.
Import ListNotations.

Set Warnings "-register-all".
Local Open Scope string_scope.
Local Open Scope list_scope.
Local Open Scope Z_scope.

(** ** Python exceptions and fallible computations *)

(** Instances of [Exception]: the classes the embedded code can meet. *)
Inductive PyExc : Type :=
| AttributeError
| TypeError
| ValidationError
| RaisedBy (who : string).

Inductive result (A : Type) : Type :=
| Ok (a : A)
| Raise (e : PyExc).

Arguments Ok {A} a.
Arguments Raise {A} e.

Definition bind {A B : Type} (m : result A) (k : A -> result B) : result B :=
  match m with
  | Ok a => k a
  | Raise e => Raise e
  end.

Notation "x <- m ;; k" := (bind m (fun x => k))
  (at level 61, m at next level, right associativity).

(** [try: m except Exception: h] *)
Definition try_except {A : Type} (m : result A) (h : PyExc -> A) : A :=
  match m with
  | Ok a => a
  | Raise e => h e
  end.

Fixpoint mapM {A B : Type} (f : A -> result B) (l : list A) : result (list B) :=
  match l with
  | [] => Ok []
  | a :: l' => b <- f a ;; bs <- mapM f l' ;; Ok (b :: bs)
  end.

(** ** Python values *)

(** What [json.loads] and [response.json()] can produce.  A [PyDict] lists
    the items of the dict in insertion order. *)
Inductive PyVal : Type :=
| PyNone
| PyBool (b : bool)
| PyInt (z : Z)
| PyFloat (literal : string)
| PyStr (s : string)
| PyList (l : list PyVal)
| PyDict (items : list (string * PyVal)).

Fixpoint dict_lookup (k : string) (items : list (string * PyVal)) : option PyVal :=
  match items with
  | [] => None
  | (k', v) :: rest => if String.eqb k k' then Some v else dict_lookup k rest
  end.

(** [d[k] = v] on the item list of a dict: an existing key keeps its place. *)
Fixpoint dict_set (k : string) (v : PyVal) (items : list (string * PyVal))
  : list (string * PyVal) :=
  match items with
  | [] => [(k, v)]
  | (k', v') :: rest =>
      if String.eqb k k' then (k, v) :: rest else (k', v') :: dict_set k v rest
  end.

(** [x.get(key, default)]: only a dict has the method. *)
Definition py_get (x : PyVal) (key : string) (default : PyVal) : result PyVal :=
  match x with
  | PyDict items =>
      Ok (match dict_lookup key items with Some v => v | None => default end)
  | _ => Raise AttributeError
  end.

(** [isinstance(x, dict)] *)
Definition is_dict (x : PyVal) : bool :=
  match x with
  | PyDict _ => true
  | _ => false
  end.

Fixpoint chars (s : string) : list PyVal :=
  match s with
  | EmptyString => []
  | String c s' => PyStr (String c EmptyString) :: chars s'
  end.

(** [for a in x]: the items a comprehension over [x] visits. *)
Definition py_iter (x : PyVal) : result (list PyVal) :=
  match x with
  | PyList l => Ok l
  | PyDict items => Ok (map (fun kv => PyStr (fst kv)) items)
  | PyStr s => Ok (chars s)
  | _ => Raise TypeError
  end.

(** ** Text *)

Definition lower_ascii (c : ascii) : ascii :=
  let n := nat_of_ascii c in
  if ((65 <=? n) && (n <=? 90))%nat then ascii_of_nat (n + 32) else c.

Fixpoint lower (s : string) : string :=
  match s with
  | EmptyString => EmptyString
  | String c s' => String (lower_ascii c) (lower s')
  end.

(** [t.lower()]: only a [str] has the method. *)
Definition py_lower (t : PyVal) : result string :=
  match t with
  | PyStr s => Ok (lower s)
  | _ => Raise AttributeError
  end.

(** [word in text] *)
Fixpoint contains (word text : string) : bool :=
  match text with
  | EmptyString => String.prefix word EmptyString
  | String _ text' => String.prefix word text || contains word text'
  end.

(** [any(word in text for word in words)] *)
Definition any_in (words : list string) (text : string) : bool :=
  existsb (fun word => contains word text) words.

(** An item mentions a lexicon when its lower-cased text contains one of
    the lexicon's words. *)
Definition mentions (words : list string) (item : string) : bool :=
  any_in words (lower item).

(** The number of items that mention a lexicon. *)
Definition mention_count (words : list string) (items : list string) : Z :=
  Z.of_nat (List.length (filter (mentions words) items)).

Definition positive_words : list string :=
  ["surge"; "rise"; "gain"; "up"; "positive"; "growth"; "profit"; "success";
   "beat"; "record"; "strong"].

Definition negative_words : list string :=
  ["fall"; "drop"; "decline"; "down"; "negative"; "loss"; "crash"; "risk";
   "miss"; "weak"; "lawsuit"].

(** ** Records of the program *)

(** [GoogleSearchResult] and [GoogleSearchResults] of the search tool. *)
Record GoogleSearchResult : Type := mkGoogleSearchResult {
  url : string;
  title : option string;
  description : option string
}.

Record GoogleSearchResults : Type := mkGoogleSearchResults {
  result_count : Z;
  results : list GoogleSearchResult
}.

(** The dict [get_headline_sentiment] returns. *)
Record Sentiment : Type := mkSentiment {
  s_symbol : string;
  positive_headlines : Z;
  negative_headlines : Z;
  total_headlines : Z;
  sentiment_score : Q;
  sample_headlines : list PyVal
}.

(** The two arguments of the f-string
    ["Headline sentiment: {score:.2f}. Sample: {sample_headlines}"],
    which determine the rendered text. *)
Record Reasoning : Type := mkReasoning {
  reasoning_score : Q;
  reasoning_sample : list PyVal
}.

(** [StockRecommendation].  A dataclass does not check its field types:
    [company_name] and [sector] hold whatever the lookup document held. *)
Record StockRecommendation : Type := mkStockRecommendation {
  symbol : string;
  company_name : PyVal;
  current_price : Q;
  confidence_score : Q;
  reasoning : Reasoning;
  sector : PyVal;
  market_cap : option string;
  pe_ratio : option Q;
  news_sentiment : option Q;
  trend_alignment : option string
}.

(** ** The external collaborators *)

(** What the [googlesearch] generator hands over: [SearchResult] objects
    when [advanced] is set, plain URL strings otherwise. *)
Inductive LibResult : Type :=
| LibAdvanced (u : string) (t d : option string)
| LibUrl (u : string).

(** A run of the generator: the items it yields, then either exhaustion or
    an exception. *)
Record Generated : Type := mkGenerated {
  yielded : list LibResult;
  failure : option PyExc
}.

Record Adapters : Type := mkAdapters {
  (** [NewsAPITool.enabled], i.e. whether a key was configured *)
  news_enabled : bool;
  (** [requests.get], [raise_for_status] and [response.json()] for a query
      and a [days_back] window: the decoded body, or what was raised *)
  news_http : string -> Z -> result PyVal;
  (** [googlesearch.search(term, num_results, lang, advanced, start_num,
      unique)]; [sleep_interval] only paces the requests *)
  web_search : string -> Z -> string -> bool -> Z -> bool -> Generated;
  (** [YahooFinanceTool.get_company_info] *)
  get_company_info : string -> result PyVal
}.

(** ** Python list operations *)

(** [l[:n]]: a negative bound counts from the end. *)
Definition slice_to {A : Type} (l : list A) (n : Z) : list A :=
  if 0 <=? n then firstn (Z.to_nat n) l
  else firstn (List.length l - Z.to_nat (- n)) l.

(** [l.sort(key=..., reverse=True)] is a stable sort by descending key: an
    item goes behind every item whose key is at least its own.  Insertion
    from the right realises exactly that order. *)
Fixpoint insert_desc {A : Type} (key : A -> Q) (x : A) (l : list A) : list A :=
  match l with
  | [] => [x]
  | y :: l' =>
      if Qle_bool (key y) (key x) then x :: y :: l'
      else y :: insert_desc key x l'
  end.

Fixpoint sort_desc {A : Type} (key : A -> Q) (l : list A) : list A :=
  match l with
  | [] => []
  | x :: l' => insert_desc key x (sort_desc key l')
  end.

(** The order the sort establishes: keys never increase. *)
Definition desc {A : Type} (key : A -> Q) (a b : A) : Prop := (key b <= key a)%Q.

(** The items whose key equals [q]. *)
Definition has_key {A : Type} (key : A -> Q) (q : Q) (a : A) : bool :=
  Qeq_bool (key a) q.

(** ** The search adapter ([tools/google_search_tools.py]) and the news
       adapter ([NewsAPITool]) *)

(** Body of the [for result in results] loop of [google_search]. *)
Definition to_search_result (advanced : bool) (r : LibResult)
  : result GoogleSearchResult :=
  if advanced then
    match r with
    | LibAdvanced u t d => Ok (mkGoogleSearchResult u t d)
    | LibUrl _ => Raise AttributeError
    end
  else
    match r with
    | LibUrl u => Ok (mkGoogleSearchResult u None None)
    | LibAdvanced _ _ _ => Raise ValidationError
    end.

Section Pipeline.

(** [json.loads] of the standard library. *)
Variable json_loads : string -> result PyVal.
Variable W : Adapters.

Definition google_search (query : string) (max_results : Z) (start_number : Z)
  (language : string) (advanced : bool) (unique : bool)
  : result GoogleSearchResults :=
  let run := web_search W query max_results language advanced start_number unique in
  search_results <- mapM (to_search_result advanced) (yielded run) ;;
  match failure run with
  | Some e => Raise e
  | None =>
      Ok (mkGoogleSearchResults (Z.of_nat (List.length search_results)) search_results)
  end.

Definition get_trending_news (query : string) (days_back : Z) : PyVal :=
  if negb (news_enabled W) then PyList []
  else
    try_except
      (data <- news_http W query days_back ;;
       py_get data "articles" (PyList []))
      (fun _ => PyList []).

(** ** Headline collection and scoring ([get_headline_sentiment]) *)

(** [any(word in t.lower() for word in words)]: the generator lower-cases
    [t] once per word it tries, and stops at the first word found. *)
Fixpoint any_word_in (words : list string) (t : PyVal) : result bool :=
  match words with
  | [] => Ok false
  | word :: rest =>
      low <- py_lower t ;;
      if contains word low then Ok true else any_word_in rest t
  end.

(** [sum(any(word in t.lower() for word in words) for t in titles)] *)
Fixpoint count_hits (words : list string) (titles : list PyVal) : result Z :=
  match titles with
  | [] => Ok 0
  | t :: rest =>
      hit <- any_word_in words t ;;
      n <- count_hits words rest ;;
      Ok ((if hit then 1 else 0) + n)
  end.

(** [r.title or ''] *)
Definition title_or_empty (r : GoogleSearchResult) : string :=
  match title r with
  | Some t => t
  | None => EmptyString
  end.

(** Lines 219-226: the merged headline list [all_titles]. *)
Definition collect_titles (sym : string) : result (list PyVal) :=
  let news_articles := get_trending_news sym 5 in
  articles <- py_iter news_articles ;;
  news_titles <- mapM (fun a => py_get a "title" (PyStr EmptyString)) articles ;;
  google_results <- google_search (sym ++ " stock news")%string 5 0 "en" true false ;;
  let google_titles := map (fun r => PyStr (title_or_empty r)) (results google_results) in
  Ok (news_titles ++ google_titles).

(** Lines 227-241: the lexical score of [all_titles]. *)
Definition score_titles (sym : string) (all_titles : list PyVal) : result Sentiment :=
  pos <- count_hits positive_words all_titles ;;
  neg <- count_hits negative_words all_titles ;;
  let total := Z.of_nat (List.length all_titles) in
  let score := if 0 <? total then (inject_Z (pos - neg) / inject_Z total)%Q else 0%Q in
  Ok (mkSentiment sym pos neg total score (firstn 3 all_titles)).

Definition get_headline_sentiment (sym : string) : result Sentiment :=
  all_titles <- collect_titles sym ;;
  score_titles sym all_titles.

(** ** Enrichment and the per-candidate loop ([generate_recommendations]) *)

Definition _is_valid_json (s : string) : bool :=
  try_except (_ <- json_loads s ;; Ok true) (fun _ => false).

(** Lines 257-264: name and sector from the lookup response. *)
Definition enrich (sym : string) (company_info : PyVal) : result (PyVal * PyVal) :=
  match company_info with
  | PyStr s =>
      if _is_valid_json s then
        company_data <- json_loads s ;;
        name <- py_get company_data "Name" (PyStr sym) ;;
        sec <- py_get company_data "Sector" (PyStr "Unknown") ;;
        Ok (name, sec)
      else Ok (PyStr sym, PyStr "Unknown")
  | _ => Ok (PyStr sym, PyStr "Unknown")
  end.

(** The body of [try:] for one symbol: [Ok None] is the [continue] taken
    when no headline was collected. *)
Definition analyze (sym : string) : result (option StockRecommendation) :=
  sentiment <- get_headline_sentiment sym ;;
  if total_headlines sentiment =? 0 then Ok None
  else
    company_info <- get_company_info W sym ;;
    ns <- enrich sym company_info ;;
    Ok (Some (mkStockRecommendation sym (fst ns) 0
                (sentiment_score sentiment)
                (mkReasoning (sentiment_score sentiment) (sample_headlines sentiment))
                (snd ns) None None None None)).

(** An exception [e] escapes the evaluation of one candidate: from headline
    collection, from scoring, from the company lookup or from enrichment. *)
Inductive raised_while_evaluating (sym : string) (e : PyExc) : Prop :=
| raised_collecting :
    collect_titles sym = Raise e ->
    raised_while_evaluating sym e
| raised_scoring (all_titles : list PyVal) :
    collect_titles sym = Ok all_titles ->
    score_titles sym all_titles = Raise e ->
    raised_while_evaluating sym e
| raised_looking_up (sentiment : Sentiment) :
    get_headline_sentiment sym = Ok sentiment ->
    total_headlines sentiment <> 0 ->
    get_company_info W sym = Raise e ->
    raised_while_evaluating sym e
| raised_enriching (sentiment : Sentiment) (company_info : PyVal) :
    get_headline_sentiment sym = Ok sentiment ->
    total_headlines sentiment <> 0 ->
    get_company_info W sym = Ok company_info ->
    enrich sym company_info = Raise e ->
    raised_while_evaluating sym e.

(** What the loop has built up: the list being appended to, the
    [logger.error] lines, and the number of [progress.advance] calls. *)
Record LoopState : Type := mkLoopState {
  recommendations : list StockRecommendation;
  error_log : list (string * PyExc);
  advanced_by : nat
}.

(** One iteration of [for symbol in self.stock_universe]. *)
Definition step (st : LoopState) (sym : string) : LoopState :=
  match analyze sym with
  | Ok None =>
      mkLoopState (recommendations st) (error_log st) (S (advanced_by st))
  | Ok (Some rec) =>
      mkLoopState (recommendations st ++ [rec]) (error_log st) (S (advanced_by st))
  | Raise e =>
      mkLoopState (recommendations st) (error_log st ++ [(sym, e)]) (S (advanced_by st))
  end.

(** What one candidate adds to the list, and to the log. *)
Definition records_of (sym : string) : list StockRecommendation :=
  match analyze sym with
  | Ok (Some rec) => [rec]
  | _ => []
  end.

Definition errors_of (sym : string) : list (string * PyExc) :=
  match analyze sym with
  | Raise e => [(sym, e)]
  | _ => []
  end.

Definition run_loop (universe : list string) : LoopState :=
  fold_left step universe (mkLoopState [] [] 0).

(** [r.confidence_score > 0] *)
Definition is_positive (r : StockRecommendation) : bool :=
  negb (Qle_bool (confidence_score r) 0).

(** Lines 281-283: filter, sort, truncate. *)
Definition rank (recs : list StockRecommendation) (top_n : Z)
  : list StockRecommendation :=
  let positive := filter is_positive recs in
  let sorted := sort_desc confidence_score positive in
  slice_to sorted top_n.

Definition generate_recommendations (universe : list string) (top_n : Z)
  : list StockRecommendation :=
  rank (recommendations (run_loop universe)) top_n.

End Pipeline.

(** ** The candidate universe ([self.stock_universe], lines 160-215) *)

Definition stock_universe : list string :=
  [
   (* Technology (Mega Cap) *)
   "AAPL"; "MSFT"; "GOOGL"; "AMZN"; "NVDA"; "META"; "TSLA"; "NFLX"; "ADBE"; "CRM";
   "ORCL"; "CSCO"; "INTC"; "AMD"; "QCOM"; "AVGO"; "TXN"; "MU"; "INTU"; "ADP";
   "IBM"; "NOW"; "SNPS"; "KLAC"; "LRCX"; "ADI"; "CDNS"; "MCHP"; "MRVL"; "WDAY";
   (* Healthcare *)
   "JNJ"; "UNH"; "PFE"; "ABBV"; "TMO"; "DHR"; "LLY"; "ABT"; "BMY"; "AMGN";
   "CVS"; "CI"; "ANTM"; "GILD"; "REGN"; "VRTX"; "BIIB"; "HUM"; "ISRG"; "BDX";
   "DVA"; "HCA"; "CNC"; "AET"; "WBA"; "CAH"; "MCK"; "ABC"; "ZTS"; "ALGN";
   (* Financial Services *)
   "JPM"; "BAC"; "WFC"; "GS"; "MS"; "BLK"; "V"; "MA"; "AXP"; "C";
   "USB"; "PNC"; "TFC"; "COF"; "SCHW"; "CB"; "AIG"; "MET"; "PRU"; "ALL";
   "TRV"; "AFL"; "HIG"; "PFG"; "BEN"; "IVZ"; "TROW"; "AMP"; "NTRS"; "STT";
   (* Consumer Discretionary *)
   "AMZN"; "TSLA"; "HD"; "MCD"; "DIS"; "NKE"; "SBUX"; "TGT"; "LOW"; "TJX";
   "BKNG"; "MAR"; "HLT"; "CMG"; "YUM"; "DPZ"; "SBUX"; "ULTA"; "ROST"; "TJX";
   "ORLY"; "AZO"; "KMX"; "LVS"; "WYNN"; "MGM"; "CCL"; "RCL"; "NCLH"; "UAL";
   (* Consumer Staples *)
   "PG"; "KO"; "PEP"; "WMT"; "COST"; "PM"; "MO"; "MDLZ"; "GIS"; "K";
   "HSY"; "SJM"; "CAG"; "KMB"; "CL"; "EL"; "ULTA"; "DG"; "DLTR"; "FIVE";
   "KR"; "SFM"; "SPLS"; "BBY"; "GME"; "TSCO"; "ORLY"; "AZO"; "KMX"; "CVNA";
   (* Energy *)
   "XOM"; "CVX"; "COP"; "EOG"; "SLB"; "ENPH"; "SEDG"; "FSLR"; "NEE"; "DUK";
   "SO"; "D"; "NEE"; "AEP"; "XEL"; "DTE"; "ED"; "PEG"; "WEC"; "CMS";
   "CNP"; "AEE"; "EIX"; "PCG"; "SRE"; "VLO"; "MPC"; "PSX"; "VLO"; "MPC";
   (* Industrials *)
   "CAT"; "DE"; "BA"; "GE"; "MMM"; "HON"; "UPS"; "FDX"; "LMT"; "RTX";
   "NOC"; "GD"; "LHX"; "TDG"; "TXT"; "EMR"; "ETN"; "ITW"; "DOV"; "XYL";
   "PH"; "AME"; "FTV"; "IEX"; "PNR"; "DCI"; "GWW"; "FAST"; "GPC"; "WSO";
   (* Real Estate *)
   "AMT"; "PLD"; "CCI"; "EQIX"; "DLR"; "PSA"; "O"; "SPG"; "VICI"; "WELL";
   "EQR"; "AVB"; "MAA"; "ESS"; "UDR"; "CPT"; "AIV"; "BXP"; "VNO"; "SLG";
   "KIM"; "FRT"; "REG"; "MAC"; "PEAK"; "ARE"; "BMRN"; "HST"; "PK"; "AHT";
   (* Materials *)
   "LIN"; "APD"; "FCX"; "NEM"; "BHP"; "RIO"; "VALE"; "AA"; "X"; "NUE";
   "SHW"; "ECL"; "APTV"; "ALB"; "LVS"; "WYNN"; "MGM"; "CCL"; "RCL"; "NCLH";
   "DOW"; "DD"; "EMN"; "LYB"; "BLL"; "IP"; "PKG"; "WRK"; "SEE"; "BMS";
   (* Communication Services *)
   "GOOGL"; "META"; "NFLX"; "DIS"; "CMCSA"; "CHTR"; "VZ"; "T"; "TMUS"; "ATVI";
   "EA"; "TTWO"; "ZNGA"; "MTCH"; "SNAP"; "PINS"; "TWTR"; "LYV"; "FOX"; "NWSA";
   "PARA"; "WBD"; "LUMN"; "CTL"; "VZ"; "T"; "TMUS"; "S"; "LBRDK"; "LBRDA";
   (* Utilities *)
   "NEE"; "DUK"; "SO"; "D"; "AEP"; "XEL"; "DTE"; "ED"; "PEG"; "WEC";
   "CMS"; "CNP"; "AEE"; "EIX"; "PCG"; "SRE"; "AEP"; "XEL"; "DTE"; "ED";
   "PEG"; "WEC"; "CMS"; "CNP"; "AEE"; "EIX"; "PCG"; "SRE"; "VLO"; "MPC"
  ].

(** ** A reference decoder for [json.loads]

    The pipeline above is parametric in [json.loads].  To run it on concrete
    lookup responses, [RefJson.loads] decodes the ASCII fragment of JSON the
    way the standard library does: insignificant white space, the three
    literals, numbers (an integer literal becomes an [int], one with a
    fraction or exponent a [float]), strings with the two-character escapes,
    arrays and objects (a repeated key keeps its first place and its last
    value).  Texts with [\u] escapes are outside the fragment and are
    reported as undecodable. *)
Module RefJson.

Local Open Scope char_scope.

Definition JSONDecodeError : PyExc := RaisedBy "json.JSONDecodeError"%string.

Fixpoint to_chars (s : string) : list ascii :=
  match s with
  | EmptyString => []
  | String c s' => c :: to_chars s'
  end.

Fixpoint of_chars (cs : list ascii) : string :=
  match cs with
  | [] => EmptyString
  | c :: cs' => String c (of_chars cs')
  end.

Definition dquote : ascii := ascii_of_nat 34.

Definition is_ws (c : ascii) : bool :=
  Ascii.eqb c " " || Ascii.eqb c "009" || Ascii.eqb c "010" || Ascii.eqb c "013".

Fixpoint skip_ws (cs : list ascii) : list ascii :=
  match cs with
  | c :: cs' => if is_ws c then skip_ws cs' else cs
  | [] => []
  end.

Definition is_digit (c : ascii) : bool :=
  let n := nat_of_ascii c in ((48 <=? n) && (n <=? 57))%nat.

Fixpoint take_digits (cs : list ascii) : list ascii * list ascii :=
  match cs with
  | c :: cs' =>
      if is_digit c then let (ds, rest) := take_digits cs' in (c :: ds, rest)
      else ([], cs)
  | [] => ([], [])
  end.

Definition digits_value (ds : list ascii) : Z :=
  fold_left (fun acc c => 10 * acc + (Z.of_nat (nat_of_ascii c) - 48)) ds 0.

(** Drops a literal from the front of the input. *)
Fixpoint expect (lit cs : list ascii) : option (list ascii) :=
  match lit, cs with
  | [], _ => Some cs
  | l :: lit', c :: cs' => if Ascii.eqb l c then expect lit' cs' else None
  | _ :: _, [] => None
  end.

(** The body of a string, after the opening quote. *)
Fixpoint scan_string (cs : list ascii) (acc : list ascii)
  : option (string * list ascii) :=
  match cs with
  | [] => None
  | c :: rest =>
      if Ascii.eqb c dquote then Some (of_chars (rev acc), rest)
      else if Ascii.eqb c "\" then
        match rest with
        | [] => None
        | e :: rest' =>
            let esc (x : ascii) := scan_string rest' (x :: acc) in
            if Ascii.eqb e dquote then esc dquote
            else if Ascii.eqb e "\" then esc "\"
            else if Ascii.eqb e "/" then esc "/"
            else if Ascii.eqb e "b" then esc "008"
            else if Ascii.eqb e "f" then esc "012"
            else if Ascii.eqb e "n" then esc "010"
            else if Ascii.eqb e "r" then esc "013"
            else if Ascii.eqb e "t" then esc "009"
            else None
        end
      else if (nat_of_ascii c <? 32)%nat then None
      else scan_string rest (c :: acc)
  end.

(** [-? int frac? exp?] *)
Definition scan_number (cs : list ascii) : option (PyVal * list ascii) :=
  let (neg, cs1) :=
    match cs with "-" :: r => (true, r) | _ => (false, cs) end in
  let (int_ds, cs2) := take_digits cs1 in
  match int_ds with
  | [] => None
  | d :: more =>
      if Ascii.eqb d "0" && negb (match more with [] => true | _ => false end)
      then None
      else
        let (frac, cs3) :=
          match cs2 with
          | "." :: r =>
              let (fd, r') := take_digits r in
              match fd with [] => (None, cs2) | _ => (Some ("." :: fd), r') end
          | _ => (Some [], cs2)
          end in
        match frac with
        | None => None
        | Some frac_cs =>
            let (exp_cs, cs4) :=
              match cs3 with
              | e :: r =>
                  if Ascii.eqb e "e" || Ascii.eqb e "E" then
                    let (sign, r1) :=
                      match r with
                      | "+" :: r' => (["+"], r')
                      | "-" :: r' => (["-"], r')
                      | _ => ([], r)
                      end in
                    let (ed, r2) := take_digits r1 in
                    match ed with
                    | [] => ([], cs3)
                    | _ => (e :: sign ++ ed, r2)
                    end
                  else ([], cs3)
              | [] => ([], cs3)
              end in
            match frac_cs, exp_cs with
            | [], [] =>
                let v := digits_value int_ds in
                Some (PyInt (if neg then - v else v), cs4)
            | _, _ =>
                Some (PyFloat (of_chars ((if neg then ["-"] else [])
                                         ++ int_ds ++ frac_cs ++ exp_cs)), cs4)
            end
        end
  end.

Fixpoint value (fuel : nat) (cs : list ascii) {struct fuel}
  : option (PyVal * list ascii) :=
  match fuel with
  | O => None
  | S fuel' =>
      let input := skip_ws cs in
      let literal (v : PyVal) (text : string) :=
        option_map (pair v) (expect (to_chars text) input) in
      match input with
      | [] => None
      | c :: rest =>
          if Ascii.eqb c dquote then
            match scan_string rest [] with
            | Some (s, rest') => Some (PyStr s, rest')
            | None => None
            end
          else
            match c, rest with
            | "n", _ => literal PyNone "null"%string
            | "t", _ => literal (PyBool true) "true"%string
            | "f", _ => literal (PyBool false) "false"%string
            | "N", _ => literal (PyFloat "nan"%string) "NaN"%string
            | "I", _ => literal (PyFloat "inf"%string) "Infinity"%string
            | "-", "I" :: _ => literal (PyFloat "-inf"%string) "-Infinity"%string
            | "[", _ =>
                match skip_ws rest with
                | "]" :: rest' => Some (PyList [], rest')
                | _ => elements fuel' rest []
                end
            | "{", _ =>
                match skip_ws rest with
                | "}" :: rest' => Some (PyDict [], rest')
                | _ => members fuel' rest []
                end
            | _, _ => scan_number input
            end
      end
  end

with elements (fuel : nat) (cs : list ascii) (acc : list PyVal) {struct fuel}
  : option (PyVal * list ascii) :=
  match fuel with
  | O => None
  | S fuel' =>
      match value fuel' cs with
      | Some (v, rest) =>
          match skip_ws rest with
          | "," :: rest' => elements fuel' rest' (v :: acc)
          | "]" :: rest' => Some (PyList (rev (v :: acc)), rest')
          | _ => None
          end
      | None => None
      end
  end

with members (fuel : nat) (cs : list ascii) (acc : list (string * PyVal))
  {struct fuel} : option (PyVal * list ascii) :=
  match fuel with
  | O => None
  | S fuel' =>
      match skip_ws cs with
      | [] => None
      | c :: rest =>
          if Ascii.eqb c dquote then
            match scan_string rest [] with
            | Some (k, rest1) =>
                match skip_ws rest1 with
                | ":" :: rest2 =>
                    match value fuel' rest2 with
                    | Some (v, rest3) =>
                        match skip_ws rest3 with
                        | "," :: rest4 => members fuel' rest4 (dict_set k v acc)
                        | "}" :: rest4 => Some (PyDict (dict_set k v acc), rest4)
                        | _ => None
                        end
                    | None => None
                    end
                | _ => None
                end
            | None => None
            end
          else None
      end
  end.

Definition loads (s : string) : result PyVal :=
  let cs := to_chars s in
  match value (2 * List.length cs + 2) cs with
  | Some (v, rest) =>
      match skip_ws rest with
      | [] => Ok v
      | _ => Raise JSONDecodeError
      end
  | None => Raise JSONDecodeError
  end.

End RefJson.

(** ** A concrete environment

    Adapter responses for a handful of symbols, used to run the pipeline. *)

Definition dq : string := String (ascii_of_nat 34) EmptyString.

(** The document [{"Name": name, "Sector": sector}]. *)
Definition company_document (name sector : string) : string :=
  ("{" ++ dq ++ "Name" ++ dq ++ ": " ++ dq ++ name ++ dq ++ ", "
       ++ dq ++ "Sector" ++ dq ++ ": " ++ dq ++ sector ++ dq ++ "}")%string.

Definition articles_body (titles : list PyVal) : PyVal :=
  PyDict [("status", PyStr "ok");
          ("articles", PyList (map (fun t => PyDict [("title", t)]) titles))].

Definition demo_news (query : string) (days_back : Z) : result PyVal :=
  if String.eqb query "AAA" then
    Ok (articles_body [PyStr "AAA stock gain continues"])
  else if String.eqb query "ERR" then
    Ok (articles_body [PyStr "ERR profit beats forecasts"])
  else if String.eqb query "MIX" then
    Ok (articles_body [PyStr "MIX profit up"; PyStr "MIX faces lawsuit"])
  else if String.eqb query "NUL" then
    Ok (articles_body [PyNone])
  else Raise (RaisedBy "requests.ConnectionError").

Definition demo_search (term : string) (num_results : Z) (lang : string)
  (advanced : bool) (start_num : Z) (unique : bool) : Generated :=
  if String.eqb term "ERR stock news" then
    mkGenerated [] (Some (RaisedBy "requests.HTTPError"))
  else if String.eqb term "GGG stock news" then
    mkGenerated [LibAdvanced "https://example.org/ggg"
                   (Some "GGG shares surge to record") (Some "Markets")] None
  else if String.eqb term "LST stock news" then
    mkGenerated [LibAdvanced "https://example.org/lst"
                   (Some "LST posts strong growth") None] None
  else if String.eqb term "MIX stock news" then
    mkGenerated [LibAdvanced "https://example.org/mix/1" (Some "MIX profit up") None;
                 LibAdvanced "https://example.org/mix/2" None None] None
  else if String.eqb term "AMZN stock news" then
    mkGenerated [LibAdvanced "https://example.org/amzn"
                   (Some "AMZN shares gain") None] None
  else mkGenerated [] None.

Definition demo_company_info (sym : string) : result PyVal :=
  if String.eqb sym "AAA" then Ok (PyStr (company_document "Triple A Corp" "Technology"))
  else if String.eqb sym "LST" then Ok (PyStr "[]")
  else if String.eqb sym "AMZN" then Ok (PyStr (company_document "Amazon.com, Inc." "Consumer Cyclical"))
  else Ok (PyStr ("Error fetching company info for " ++ sym))%string.

Definition demo_world : Adapters :=
  mkAdapters true demo_news demo_search demo_company_info.

(** ** The keyword sentiment of the news tool ([get_market_sentiment]) *)

(** [isinstance(x, str)] *)
Definition is_str (x : PyVal) : bool :=
  match x with
  | PyStr _ => true
  | _ => false
  end.

(** [len(x)] *)
Definition py_len (x : PyVal) : result Z :=
  match x with
  | PyList l => Ok (Z.of_nat (List.length l))
  | PyDict items => Ok (Z.of_nat (List.length items))
  | PyStr s => Ok (Z.of_nat (String.length s))
  | _ => Raise TypeError
  end.

(** The lexicons local to [get_market_sentiment]. *)
Definition market_positive_words : list string :=
  ["surge"; "rise"; "gain"; "up"; "positive"; "growth"; "profit"; "success"].

Definition market_negative_words : list string :=
  ["fall"; "drop"; "decline"; "down"; "negative"; "loss"; "crash"; "risk"].

(** [for word in words: if word in title: count += 1], as an increment. *)
Fixpoint word_hits (words : list string) (title : string) : Z :=
  match words with
  | [] => 0
  | word :: rest => (if contains word title then 1 else 0) + word_hits rest title
  end.

(** The entry stored for one keyword. *)
Record KeywordSentiment : Type := mkKeywordSentiment {
  k_score : Q;
  articles_count : Z;
  positive_count : Z;
  negative_count : Z
}.

(** [sentiment_data[keyword] = entry]: a key that is present keeps its place. *)
Fixpoint data_set (keyword : string) (entry : KeywordSentiment)
  (data : list (string * KeywordSentiment)) : list (string * KeywordSentiment) :=
  match data with
  | [] => [(keyword, entry)]
  | (k, e) :: rest =>
      if String.eqb keyword k then (keyword, entry) :: rest
      else (k, e) :: data_set keyword entry rest
  end.

Fixpoint data_get (keyword : string) (data : list (string * KeywordSentiment))
  : option KeywordSentiment :=
  match data with
  | [] => None
  | (k, e) :: rest => if String.eqb keyword k then Some e else data_get keyword rest
  end.

(** The [for article in articles] loop: the two counters after it. *)
Fixpoint count_articles (articles : list PyVal) (positive negative : Z)
  : result (Z * Z) :=
  match articles with
  | [] => Ok (positive, negative)
  | article :: rest =>
      t <- py_get article "title" (PyStr EmptyString) ;;
      title <- py_lower t ;;
      count_articles rest
        (positive + word_hits market_positive_words title)
        (negative + word_hits market_negative_words title)
  end.

Section MarketSentiment.

(** Whether the float a literal denotes is zero, i.e. falsy. *)
Variable float_is_zero : string -> bool.
Variable W : Adapters.

(** [bool(x)], the test of [if articles:]. *)
Definition py_truthy (x : PyVal) : bool :=
  match x with
  | PyNone => false
  | PyBool b => b
  | PyInt z => negb (z =? 0)
  | PyFloat literal => negb (float_is_zero literal)
  | PyStr s => negb (String.eqb s EmptyString)
  | PyList l => match l with [] => false | _ => true end
  | PyDict items => match items with [] => false | _ => true end
  end.

(** The body of [for keyword in keywords]: the dict after this keyword. *)
Definition keyword_step (data : list (string * KeywordSentiment)) (keyword : string)
  : result (list (string * KeywordSentiment)) :=
  let articles := get_trending_news W keyword 3 in
  if py_truthy articles then
    items <- py_iter articles ;;
    counts <- count_articles items 0 0 ;;
    total_articles <- py_len articles ;;
    if 0 <? total_articles then
      Ok (data_set keyword
            (mkKeywordSentiment
               (inject_Z (fst counts - snd counts) / inject_Z total_articles)%Q
               total_articles (fst counts) (snd counts))
            data)
    else Ok data
  else Ok data.

Fixpoint keyword_loop (keywords : list string) (data : list (string * KeywordSentiment))
  : result (list (string * KeywordSentiment)) :=
  match keywords with
  | [] => Ok data
  | keyword :: rest =>
      data' <- keyword_step data keyword ;;
      keyword_loop rest data'
  end.

Definition get_market_sentiment (keywords : list string)
  : result (list (string * KeywordSentiment)) :=
  if negb (news_enabled W) then Ok []
  else keyword_loop keywords [].

End MarketSentiment.

(** ** The saved document ([save_recommendations]) *)

(** [url] of what the generator handed over. *)
Definition lib_url (r : LibResult) : string :=
  match r with
  | LibAdvanced u _ _ => u
  | LibUrl u => u
  end.

(** The values of the entry written for one recommendation. *)
Inductive SavedValue : Type :=
| SavedText (s : string)
| SavedValueOf (v : PyVal)
| SavedNumber (q : Q)
| SavedReasoning (r : Reasoning)
| SavedOptText (o : option string)
| SavedOptNumber (o : option Q).

(** The dict built for [rec] in the list comprehension of
    [save_recommendations], as its items in order. *)
Definition saved_entry (rec : StockRecommendation) : list (string * SavedValue) :=
  [("symbol", SavedText (symbol rec));
   ("company_name", SavedValueOf (company_name rec));
   ("current_price", SavedNumber (current_price rec));
   ("confidence_score", SavedNumber (confidence_score rec));
   ("reasoning", SavedReasoning (reasoning rec));
   ("sector", SavedValueOf (sector rec));
   ("market_cap", SavedOptText (market_cap rec));
   ("pe_ratio", SavedOptNumber (pe_ratio rec));
   ("trend_alignment", SavedOptText (trend_alignment rec))].

(** The [data] handed to [json.dump]; [timestamp] is
    [datetime.now().isoformat()]. *)
Record SavedDocument : Type := mkSavedDocument {
  saved_timestamp : string;
  saved_recommendations : list (list (string * SavedValue))
}.

Definition save_document (timestamp : string) (recs : list StockRecommendation)
  : SavedDocument :=
  mkSavedDocument timestamp (map saved_entry recs).

(** An article whose [title] lookup gives a string, so that
    [article.get('title', '').lower()] goes through. *)
Definition has_text_title (article : PyVal) : bool :=
  match py_get article "title" (PyStr EmptyString) with
  | Ok (PyStr _) => true
  | _ => false
  end.

(** What [get_market_sentiment] guarantees of an entry: at least one
    article, between zero and eight hits per article in each counter, and
    the quotient of the counters as the score. *)
Definition entry_in_range (e : KeywordSentiment) : Prop :=
  0 < articles_count e /\
  0 <= positive_count e <= 8 * articles_count e /\
  0 <= negative_count e <= 8 * articles_count e /\
  k_score e = (inject_Z (positive_count e - negative_count e)
               / inject_Z (articles_count e))%Q /\
  (-8 <= k_score e <= 8)%Q.

(** The invariant of the keyword loop: keys are distinct keywords seen so
    far, and every entry is in range. *)
Definition data_ok (seen : list string) (data : list (string * KeywordSentiment)) : Prop :=
  NoDup (map fst data) /\
  Forall (fun ke => In (fst ke) seen /\ entry_in_range (snd ke)) data.

(** A stand-in for the zero test of a float literal, by its mantissa: the
    literal denotes zero when no digit before the exponent is non-zero.
    It is exact for every literal that does not underflow. *)
Fixpoint mantissa_is_zero (literal : string) : bool :=
  match literal with
  | EmptyString => true
  | String c rest =>
      if Ascii.eqb c "e" || Ascii.eqb c "E" then true
      else if Ascii.eqb c "n" || Ascii.eqb c "i" then false
      else if (49 <=? nat_of_ascii c) && (nat_of_ascii c <=? 57) then false
      else mantissa_is_zero rest
  end%nat%char.

(** ** A second environment, with malformed responses *)

Definition edge_news (query : string) (days_back : Z) : result PyVal :=
  if String.eqb query "NONE" then
    Ok (PyDict [("status", PyStr "ok"); ("articles", PyNone)])
  else if String.eqb query "BAD" then
    Ok (PyDict [("articles", PyList [PyDict [("title", PyStr "BAD shares rise")];
                                     PyStr "not an article"])])
  else if String.eqb query "chips" then
    Ok (articles_body [PyStr "Profit surge lifts growth"; PyStr "Chip stocks drop"])
  else if String.eqb query "boom" then
    Ok (articles_body [PyStr "Profit surge lifts growth"])
  else if String.eqb query "rates" then
    Ok (articles_body [PyStr "Rates unchanged"])
  else if String.eqb query "void" then
    Ok (articles_body [PyNone])
  else if String.eqb query "quota" then
    Ok (PyDict [("status", PyStr "error"); ("code", PyStr "rateLimited")])
  else Raise (RaisedBy "requests.ConnectionError").

(** A generator that honours [advanced]: result objects when it is set,
    plain URLs otherwise. *)
Definition edge_search (term : string) (num_results : Z) (lang : string)
  (advanced : bool) (start_num : Z) (unique : bool) : Generated :=
  if advanced then
    mkGenerated [LibAdvanced "https://example.org/1" (Some "Shares gain") (Some "A");
                 LibAdvanced "https://example.org/2" None None;
                 LibAdvanced "https://example.org/3" (Some "Outlook weak") None] None
  else
    mkGenerated [LibUrl "https://example.org/1"; LibUrl "https://example.org/2";
                 LibUrl "https://example.org/3"] None.

Definition edge_company_info (sym : string) : result PyVal :=
  Ok (PyStr ("{" ++ dq ++ "Name" ++ dq ++ ": null, " ++ dq ++ "name" ++ dq
                 ++ ": " ++ dq ++ "lower-case key" ++ dq ++ "}"))%string.

Definition edge_world : Adapters :=
  mkAdapters true edge_news edge_search edge_company_info.

(** * Properties *)

(** ** Slicing and the stable descending sort *)

Section Sorting.

Context {A : Type} (key : A -> Q).

Lemma desc_trans (a b c : A) : desc key a b -> desc key b c -> desc key a c.
Proof.
  unfold desc; intros Hab Hbc. eapply Qle_trans; eassumption.
Qed.

Lemma slice_to_prefix (l : list A) (n : Z) :
  exists rest, l = slice_to l n ++ rest.
Proof.
  unfold slice_to. destruct (0 <=? n).
  - exists (skipn (Z.to_nat n) l). symmetry. apply firstn_skipn.
  - exists (skipn (List.length l - Z.to_nat (- n)) l). symmetry. apply firstn_skipn.
Qed.

Lemma slice_to_length (l : list A) (n : Z) :
  Z.of_nat (List.length (slice_to l n)) =
  if 0 <=? n then Z.min n (Z.of_nat (List.length l))
  else Z.max 0 (Z.of_nat (List.length l) + n).
Proof.
  unfold slice_to. destruct (Z.leb_spec 0 n); rewrite length_firstn; lia.
Qed.

Lemma insert_desc_perm (x : A) (l : list A) :
  Permutation (insert_desc key x l) (x :: l).
Proof.
  induction l as [|y l IH]; simpl.
  - apply Permutation_refl.
  - destruct (Qle_bool (key y) (key x)).
    + apply Permutation_refl.
    + eapply perm_trans; [apply perm_skip, IH | apply perm_swap].
Qed.

Lemma sort_desc_perm (l : list A) : Permutation (sort_desc key l) l.
Proof.
  induction l as [|x l IH]; simpl.
  - constructor.
  - eapply perm_trans; [apply insert_desc_perm | apply perm_skip, IH].
Qed.

Lemma insert_desc_hd (x y : A) (l : list A) :
  desc key y x -> HdRel (desc key) y l -> HdRel (desc key) y (insert_desc key x l).
Proof.
  intros Hyx Hhd. destruct l as [|z l]; simpl.
  - constructor. exact Hyx.
  - destruct (Qle_bool (key z) (key x)); constructor.
    + exact Hyx.
    + inversion Hhd; assumption.
Qed.

Lemma insert_desc_sorted (x : A) (l : list A) :
  Sorted (desc key) l -> Sorted (desc key) (insert_desc key x l).
Proof.
  induction 1 as [|y l Hs IH Hhd]; simpl.
  - repeat constructor.
  - destruct (Qle_bool (key y) (key x)) eqn:Hle.
    + apply Qle_bool_iff in Hle. repeat constructor; assumption.
    + constructor; [exact IH|]. apply insert_desc_hd; [|exact Hhd].
      unfold desc. apply Qlt_le_weak, Qnot_le_lt. intro Hc.
      apply Qle_bool_iff in Hc. congruence.
Qed.

Lemma sort_desc_sorted (l : list A) : StronglySorted (desc key) (sort_desc key l).
Proof.
  apply Sorted_StronglySorted; [intros a b c; apply desc_trans|].
  induction l as [|x l IH]; simpl; [constructor | apply insert_desc_sorted, IH].
Qed.

(** Stability: inserting an item puts it in front of the items that share
    its key, and leaves every other key class as it was. *)
Lemma insert_desc_filter (q : Q) (x : A) (l : list A) :
  filter (has_key key q) (insert_desc key x l) = filter (has_key key q) (x :: l).
Proof.
  induction l as [|y l IH]; [reflexivity|].
  cbn [insert_desc]. destruct (Qle_bool (key y) (key x)) eqn:Hle; [reflexivity|].
  cbn [filter] in *. rewrite IH.
  destruct (has_key key q x) eqn:Hx; [|reflexivity].
  destruct (has_key key q y) eqn:Hy; [|reflexivity].
  exfalso. unfold has_key in Hx, Hy. apply Qeq_bool_iff in Hx, Hy.
  assert (Hc : Qle_bool (key y) (key x) = true).
  { apply Qle_bool_iff. rewrite Hx, Hy. apply Qle_refl. }
  congruence.
Qed.

Lemma sort_desc_stable (q : Q) (l : list A) :
  filter (has_key key q) (sort_desc key l) = filter (has_key key q) l.
Proof.
  induction l as [|x l IH]; [reflexivity|].
  cbn [sort_desc]. rewrite insert_desc_filter. cbn [filter]. rewrite IH. reflexivity.
Qed.

Lemma sorted_prefix (l1 l2 : list A) :
  StronglySorted (desc key) (l1 ++ l2) -> StronglySorted (desc key) l1.
Proof.
  induction l1 as [|a l1 IH]; intros Hs; [constructor|].
  inversion Hs as [|? ? Hs' Hall]; subst. constructor.
  - apply IH, Hs'.
  - apply Forall_app in Hall. apply Hall.
Qed.

End Sorting.

(** ** The sentiment scorer *)

Lemma mention_count_cons (words : list string) (t : string) (items : list string) :
  mention_count words (t :: items) =
  (if mentions words t then 1 else 0) + mention_count words items.
Proof.
  unfold mention_count. cbn [filter].
  destruct (mentions words t); cbn [List.length]; lia.
Qed.

Lemma any_word_in_string (words : list string) (item : string) :
  any_word_in words (PyStr item) = Ok (mentions words item).
Proof.
  unfold mentions, any_in.
  induction words as [|word words IH]; [reflexivity|].
  cbn [any_word_in py_lower bind existsb].
  destruct (contains word (lower item)); [reflexivity | exact IH].
Qed.

Lemma count_hits_strings (words : list string) (items : list string) :
  count_hits words (map PyStr items) = Ok (mention_count words items).
Proof.
  induction items as [|t items IH]; [reflexivity|].
  cbn [map count_hits]. rewrite any_word_in_string, IH. cbn [bind].
  rewrite mention_count_cons. reflexivity.
Qed.

Lemma mention_count_bounds (words : list string) (items : list string) :
  0 <= mention_count words items <= Z.of_nat (List.length items).
Proof.
  unfold mention_count. pose proof (filter_length_le (mentions words) items). lia.
Qed.

(** A quotient of integers lies in [[-1, 1]] when the numerator is no larger
    in magnitude than the (positive) denominator. *)
Lemma quotient_bounds (n d : Z) :
  0 < d -> - d <= n <= d -> (-1 <= inject_Z n / inject_Z d <= 1)%Q.
Proof.
  intros Hd Hn.
  assert (Hq : (inject_Z 0 < inject_Z d)%Q) by (rewrite <- Zlt_Qlt; exact Hd).
  change (inject_Z 0) with 0%Q in Hq.
  split.
  - apply Qle_shift_div_l; [exact Hq|].
    change (-1)%Q with (inject_Z (-1)).
    rewrite <- inject_Z_mult, <- Zle_Qle. lia.
  - apply Qle_shift_div_r; [exact Hq|].
    rewrite Qmult_1_l, <- Zle_Qle. lia.
Qed.

Lemma score_titles_strings (sym : string) (items : list string) :
  score_titles sym (map PyStr items) =
  let pos := mention_count positive_words items in
  let neg := mention_count negative_words items in
  let total := Z.of_nat (List.length items) in
  Ok (mkSentiment sym pos neg total
        (if 0 <? total then inject_Z (pos - neg) / inject_Z total else 0)%Q
        (firstn 3 (map PyStr items))).
Proof.
  unfold score_titles. rewrite !count_hits_strings. cbn [bind].
  rewrite length_map. reflexivity.
Qed.

(** C6: on every list of text items the scorer returns; its score lies in
    [[-1, 1]], is [(positiveCount - negativeCount) / totalCount] when there is
    at least one item, and is [0] on the empty list. *)
Theorem score_in_unit_interval (sym : string) (items : list string) :
  exists s : Sentiment,
    score_titles sym (map PyStr items) = Ok s /\
    positive_headlines s = mention_count positive_words items /\
    negative_headlines s = mention_count negative_words items /\
    total_headlines s = Z.of_nat (List.length items) /\
    (-1 <= sentiment_score s <= 1)%Q /\
    (0 < total_headlines s ->
     (sentiment_score s ==
      inject_Z (positive_headlines s - negative_headlines s)
      / inject_Z (total_headlines s))%Q) /\
    (items = [] -> (sentiment_score s == 0)%Q).
Proof.
  eexists. split; [apply score_titles_strings|].
  cbn [positive_headlines negative_headlines total_headlines sentiment_score].
  do 3 (split; [reflexivity|]).
  split; [|split].
  - destruct (Z.ltb_spec 0 (Z.of_nat (List.length items))) as [Hpos|_].
    + apply quotient_bounds; [exact Hpos|].
      pose proof (mention_count_bounds positive_words items).
      pose proof (mention_count_bounds negative_words items). lia.
    + split; discriminate.
  - intros Hpos. apply Z.ltb_lt in Hpos. rewrite Hpos. reflexivity.
  - intros ->. reflexivity.
Qed.

(** C7: the two counters are independent presence counts.  Each item adds
    to each counter exactly its own flag for that lexicon, so an item that
    mentions both lexicons adds one to both; for the single item
    ["Profit falls sharply"] both counters are 1 and the score is 0. *)
Theorem both_lexicons_counted :
  (forall (sym t : string) (items : list string),
     exists s s' : Sentiment,
       score_titles sym (map PyStr (t :: items)) = Ok s /\
       score_titles sym (map PyStr items) = Ok s' /\
       positive_headlines s =
         (if mentions positive_words t then 1 else 0) + positive_headlines s' /\
       negative_headlines s =
         (if mentions negative_words t then 1 else 0) + negative_headlines s') /\
  (forall sym : string,
     exists s : Sentiment,
       score_titles sym [PyStr "Profit falls sharply"] = Ok s /\
       mentions positive_words "Profit falls sharply" = true /\
       mentions negative_words "Profit falls sharply" = true /\
       positive_headlines s = 1 /\
       negative_headlines s = 1 /\
       total_headlines s = 1 /\
       (sentiment_score s == 0)%Q).
Proof.
  split.
  - intros sym t items. do 2 eexists.
    split; [apply score_titles_strings|].
    split; [apply score_titles_strings|].
    cbn [positive_headlines negative_headlines].
    split; apply mention_count_cons.
  - intros sym. eexists. split; [reflexivity|].
    repeat split; reflexivity.
Qed.

Lemma count_hits_bounds (words : list string) (titles : list PyVal) (n : Z) :
  count_hits words titles = Ok n -> 0 <= n <= Z.of_nat (List.length titles).
Proof.
  revert n. induction titles as [|t titles IH]; intros n; cbn [count_hits].
  - intros [= <-]. cbn. lia.
  - destruct (any_word_in words t) as [hit|]; cbn [bind]; [|discriminate].
    destruct (count_hits words titles) as [m|]; cbn [bind]; [|discriminate].
    intros [= <-]. specialize (IH m eq_refl). cbn [List.length].
    destruct hit; lia.
Qed.

(** Whatever the titles are, a sentiment that is returned satisfies the
    invariant of the data model: both counters lie between 0 and the number
    of items, and the score lies in [[-1, 1]]. *)
Lemma sentiment_invariant (sym : string) (titles : list PyVal) (s : Sentiment) :
  score_titles sym titles = Ok s ->
  total_headlines s = Z.of_nat (List.length titles) /\
  0 <= positive_headlines s <= total_headlines s /\
  0 <= negative_headlines s <= total_headlines s /\
  (-1 <= sentiment_score s <= 1)%Q.
Proof.
  unfold score_titles.
  destruct (count_hits positive_words titles) as [pos|] eqn:Hp; cbn [bind]; [|discriminate].
  destruct (count_hits negative_words titles) as [neg|] eqn:Hn; cbn [bind]; [|discriminate].
  intros [= <-]. cbn [total_headlines positive_headlines negative_headlines sentiment_score].
  apply count_hits_bounds in Hp, Hn.
  split; [reflexivity|]. split; [exact Hp|]. split; [exact Hn|].
  destruct (Z.ltb_spec 0 (Z.of_nat (List.length titles))) as [Hpos|_].
  - apply quotient_bounds; [exact Hpos | lia].
  - split; discriminate.
Qed.

Lemma any_word_in_non_string (word : string) (words : list string) (t : PyVal) :
  is_str t = false -> any_word_in (word :: words) t = Raise AttributeError.
Proof.
  intros Ht. destruct t; try discriminate; reflexivity.
Qed.

Lemma count_hits_non_string (word : string) (words : list string) (titles : list PyVal) :
  forallb is_str titles = false ->
  count_hits (word :: words) titles = Raise AttributeError.
Proof.
  induction titles as [|t titles IH]; [discriminate|].
  cbn [forallb count_hits]. destruct (is_str t) eqn:Ht; cbn [andb].
  - intros Hrest. destruct t; try discriminate.
    rewrite any_word_in_string. cbn [bind]. rewrite (IH Hrest). reflexivity.
  - intros _. rewrite (any_word_in_non_string word words t Ht). reflexivity.
Qed.

Lemma all_strings_map (titles : list PyVal) :
  forallb is_str titles = true -> exists items, titles = map PyStr items.
Proof.
  induction titles as [|t titles IH]; [exists []; reflexivity|].
  cbn [forallb]. rewrite andb_true_iff. intros [Ht Hrest].
  destruct (IH Hrest) as [items ->]. destruct t; try discriminate.
  exists (s :: items). reflexivity.
Qed.

(** ** The per-candidate loop *)

Section Loop.

Variable json_loads : string -> result PyVal.
Variable W : Adapters.

Lemma step_spec (st : LoopState) (sym : string) :
  step json_loads W st sym =
  mkLoopState (recommendations st ++ records_of json_loads W sym)
              (error_log st ++ errors_of json_loads W sym)
              (S (advanced_by st)).
Proof.
  unfold step, records_of, errors_of.
  destruct (analyze json_loads W sym) as [[rec|]|e]; rewrite ?app_nil_r; reflexivity.
Qed.

Lemma fold_step_spec (universe : list string) (st : LoopState) :
  fold_left (step json_loads W) universe st =
  mkLoopState (recommendations st ++ flat_map (records_of json_loads W) universe)
              (error_log st ++ flat_map (errors_of json_loads W) universe)
              (List.length universe + advanced_by st).
Proof.
  revert st. induction universe as [|sym universe IH]; intros st.
  - cbn. rewrite !app_nil_r. destruct st; reflexivity.
  - cbn [fold_left flat_map List.length]. rewrite IH, step_spec.
    cbn [recommendations error_log advanced_by].
    rewrite <- !app_assoc. f_equal. lia.
Qed.

(** The loop never raises: it ends with one record per candidate that was
    analysed with evidence, one log line per candidate that raised, and one
    progress tick per candidate. *)
Lemma run_loop_spec (universe : list string) :
  run_loop json_loads W universe =
  mkLoopState (flat_map (records_of json_loads W) universe)
              (flat_map (errors_of json_loads W) universe)
              (List.length universe).
Proof.
  unfold run_loop. rewrite fold_step_spec. cbn. f_equal. lia.
Qed.

Lemma records_of_symbol (sym : string) (r : StockRecommendation) :
  In r (records_of json_loads W sym) ->
  symbol r = sym /\ analyze json_loads W sym = Ok (Some r).
Proof.
  unfold records_of. destruct (analyze json_loads W sym) as [[rec|]|e] eqn:Ha; cbn; try tauto.
  intros [<-|[]]. split; [|reflexivity].
  unfold analyze in Ha.
  destruct (get_headline_sentiment W sym) as [s|]; cbn in Ha; [|discriminate].
  destruct (total_headlines s =? 0); [discriminate|].
  destruct (get_company_info W sym) as [ci|]; cbn in Ha; [|discriminate].
  destruct (enrich json_loads sym ci) as [ns|]; cbn in Ha; [|discriminate].
  injection Ha as <-. reflexivity.
Qed.

Lemma in_recommendations (universe : list string) (r : StockRecommendation) :
  In r (recommendations (run_loop json_loads W universe)) ->
  In (symbol r) universe /\ analyze json_loads W (symbol r) = Ok (Some r).
Proof.
  rewrite run_loop_spec. cbn [recommendations]. rewrite in_flat_map.
  intros [sym [Hin Hr]]. apply records_of_symbol in Hr as [<- Ha].
  split; assumption.
Qed.

(** What [rank] returns is a prefix of the sorted positive records. *)
Lemma rank_prefix (recs : list StockRecommendation) (top_n : Z) :
  exists rest,
    sort_desc confidence_score (filter is_positive recs) = rank recs top_n ++ rest.
Proof. unfold rank. apply slice_to_prefix. Qed.

Lemma in_rank (recs : list StockRecommendation) (top_n : Z) (r : StockRecommendation) :
  In r (rank recs top_n) -> In r recs /\ (0 < confidence_score r)%Q.
Proof.
  intros Hin. destruct (rank_prefix recs top_n) as [rest Heq].
  assert (Hs : In r (sort_desc confidence_score (filter is_positive recs))).
  { rewrite Heq. apply in_or_app. left. exact Hin. }
  apply (Permutation_in _ (sort_desc_perm confidence_score _)) in Hs.
  apply filter_In in Hs as [Hrec Hpos]. split; [exact Hrec|].
  apply Qnot_le_lt. intro Hle. apply Qle_bool_iff in Hle.
  unfold is_positive in Hpos. rewrite Hle in Hpos. discriminate.
Qed.

Lemma in_error_log (universe : list string) (sym : string) (e : PyExc) :
  In (sym, e) (error_log (run_loop json_loads W universe)) ->
  analyze json_loads W sym = Raise e.
Proof.
  rewrite run_loop_spec. cbn [error_log]. rewrite in_flat_map.
  intros [sym' [_ Hin]]. unfold errors_of in Hin.
  destruct (analyze json_loads W sym') as [o|e'] eqn:Ha; [destruct Hin|].
  destruct Hin as [Heq|[]]. injection Heq as <- <-. exact Ha.
Qed.

(** Every exception of every stage reaches the [except Exception] of the
    loop body, and nothing else does. *)
Lemma raised_iff_analyze_raises (sym : string) (e : PyExc) :
  raised_while_evaluating json_loads W sym e <-> analyze json_loads W sym = Raise e.
Proof.
  unfold analyze, get_headline_sentiment. split.
  - intros [Hc | ts Hc Hs | s Hs Ht Hl | s ci Hs Ht Hl He].
    + rewrite Hc. reflexivity.
    + rewrite Hc. cbn [bind]. rewrite Hs. reflexivity.
    + unfold get_headline_sentiment in Hs. rewrite Hs. cbn [bind].
      apply Z.eqb_neq in Ht. rewrite Ht, Hl. reflexivity.
    + unfold get_headline_sentiment in Hs. rewrite Hs. cbn [bind].
      apply Z.eqb_neq in Ht. rewrite Ht, Hl. cbn [bind]. rewrite He. reflexivity.
  - destruct (collect_titles W sym) as [ts|e1] eqn:Hc; cbn [bind].
    2:{ intros [= <-]. apply raised_collecting. exact Hc. }
    destruct (score_titles sym ts) as [s|e2] eqn:Hs; cbn [bind].
    2:{ intros [= <-]. eapply raised_scoring; eassumption. }
    assert (Hg : get_headline_sentiment W sym = Ok s).
    { unfold get_headline_sentiment. rewrite Hc. exact Hs. }
    destruct (total_headlines s =? 0) eqn:Ht; [discriminate|].
    apply Z.eqb_neq in Ht.
    destruct (get_company_info W sym) as [ci|e3] eqn:Hl; cbn [bind].
    2:{ intros [= <-]. eapply raised_looking_up; eassumption. }
    destruct (enrich json_loads sym ci) as [ns|e4] eqn:He; cbn [bind]; [discriminate|].
    intros [= <-]. eapply raised_enriching; eassumption.
Qed.

(** C3: an exception raised while one candidate is evaluated is caught at
    the loop body.  The candidate adds no record, the exception goes to the
    log, and the records and the ranked output are those of the universe
    without that candidate. *)
Theorem failing_candidate_is_isolated
  (before after : list string) (sym : string) (e : PyExc) (top_n : Z) :
  raised_while_evaluating json_loads W sym e ->
  records_of json_loads W sym = [] /\
  recommendations (run_loop json_loads W (before ++ sym :: after)) =
    recommendations (run_loop json_loads W (before ++ after)) /\
  error_log (run_loop json_loads W (before ++ sym :: after)) =
    error_log (run_loop json_loads W before)
    ++ (sym, e) :: error_log (run_loop json_loads W after) /\
  generate_recommendations json_loads W (before ++ sym :: after) top_n =
    generate_recommendations json_loads W (before ++ after) top_n.
Proof.
  intros Hraised. apply raised_iff_analyze_raises in Hraised.
  assert (Hrec : records_of json_loads W sym = []).
  { unfold records_of. rewrite Hraised. reflexivity. }
  assert (Herr : errors_of json_loads W sym = [(sym, e)]).
  { unfold errors_of. rewrite Hraised. reflexivity. }
  assert (Hsame : recommendations (run_loop json_loads W (before ++ sym :: after)) =
                  recommendations (run_loop json_loads W (before ++ after))).
  { rewrite !run_loop_spec. cbn [recommendations].
    rewrite !flat_map_app. cbn [flat_map]. rewrite Hrec. reflexivity. }
  repeat split.
  - exact Hrec.
  - exact Hsame.
  - rewrite !run_loop_spec. cbn [error_log].
    rewrite flat_map_app. cbn [flat_map]. rewrite Herr. reflexivity.
  - unfold generate_recommendations. rewrite Hsame. reflexivity.
Qed.

Lemma empty_evidence_sentiment (sym : string) :
  collect_titles W sym = Ok [] ->
  get_headline_sentiment W sym = Ok (mkSentiment sym 0 0 0 0 []).
Proof.
  intros Hc. unfold get_headline_sentiment. rewrite Hc. reflexivity.
Qed.

(** C8: a candidate for which no headline was collected is left out: the
    loop body takes its [continue], nothing is appended and nothing is
    logged, so neither the assembled records nor the ranked output hold a
    record for it. *)
Theorem no_evidence_no_record (universe : list string) (sym : string) (top_n : Z) :
  collect_titles W sym = Ok [] ->
  (exists s, get_headline_sentiment W sym = Ok s /\ total_headlines s = 0) /\
  analyze json_loads W sym = Ok None /\
  records_of json_loads W sym = [] /\
  errors_of json_loads W sym = [] /\
  (forall r, In r (recommendations (run_loop json_loads W universe)) -> symbol r <> sym) /\
  (forall r, In r (generate_recommendations json_loads W universe top_n) -> symbol r <> sym) /\
  (forall e, ~ In (sym, e) (error_log (run_loop json_loads W universe))).
Proof.
  intros Hc. pose proof (empty_evidence_sentiment sym Hc) as Hs.
  assert (Ha : analyze json_loads W sym = Ok None).
  { unfold analyze. rewrite Hs. reflexivity. }
  split; [eexists; split; [exact Hs | reflexivity]|].
  split; [exact Ha|].
  split; [unfold records_of; rewrite Ha; reflexivity|].
  split; [unfold errors_of; rewrite Ha; reflexivity|].
  repeat split.
  - intros r Hin Heq. apply in_recommendations in Hin as [_ Hr].
    rewrite Heq, Ha in Hr. discriminate.
  - intros r Hin Heq. apply in_rank in Hin as [Hin _].
    apply in_recommendations in Hin as [_ Hr].
    rewrite Heq, Ha in Hr. discriminate.
  - intros e Hin. apply in_error_log in Hin. rewrite Ha in Hin. discriminate.
Qed.

(** ** The ranker *)

Lemma rank_length (recs : list StockRecommendation) (top_n : Z) :
  Z.of_nat (List.length (rank recs top_n)) =
  let count := Z.of_nat (List.length (filter is_positive recs)) in
  if 0 <=? top_n then Z.min top_n count else Z.max 0 (count + top_n).
Proof.
  unfold rank. rewrite slice_to_length.
  rewrite (Permutation_length (sort_desc_perm confidence_score _)). reflexivity.
Qed.

(** The output for any integer [top_n]: no emitted record has a score of
    zero or below.  For [top_n >= 0] the output has [min(top_n, k)] records,
    [k] being the number of assembled records with a positive score; a
    negative [top_n] is a slice bound counted from the end, and the output
    then has [max(0, k + top_n)] records. *)
Lemma ranker_positive_and_length (universe : list string) (top_n : Z) :
  let out := generate_recommendations json_loads W universe top_n in
  let k := Z.of_nat (List.length
             (filter is_positive (recommendations (run_loop json_loads W universe)))) in
  Forall (fun r => (0 < confidence_score r)%Q) out /\
  Z.of_nat (List.length out) =
    (if 0 <=? top_n then Z.min top_n k else Z.max 0 (k + top_n)).
Proof.
  cbv zeta. split.
  - apply Forall_forall. intros r Hin. apply in_rank in Hin. apply Hin.
  - unfold generate_recommendations. apply rank_length.
Qed.

(** C4: for every universe and every count [top_n] (a number of records,
    so [top_n >= 0]), the ranker emits no record with a score of zero or
    below, and the length of its output is [min(top_n, k)], [k] being the
    number of assembled records with a score above zero. *)
Theorem ranker_positive_and_min_length (universe : list string) (top_n : Z) :
  0 <= top_n ->
  let out := generate_recommendations json_loads W universe top_n in
  let k := Z.of_nat (List.length
             (filter is_positive (recommendations (run_loop json_loads W universe)))) in
  Forall (fun r => (0 < confidence_score r)%Q) out /\
  (forall r, In r out -> ~ (confidence_score r <= 0)%Q) /\
  Z.of_nat (List.length out) = Z.min top_n k.
Proof.
  intros Hn. cbv zeta.
  assert (Hpos : forall r,
             In r (generate_recommendations json_loads W universe top_n) ->
             (0 < confidence_score r)%Q).
  { intros r Hin. apply in_rank in Hin. apply Hin. }
  split; [apply Forall_forall; exact Hpos|]. split.
  - intros r Hin Hle. apply (Qlt_not_le _ _ (Hpos r Hin)). exact Hle.
  - unfold generate_recommendations. rewrite rank_length. cbv zeta.
    apply Z.leb_le in Hn. rewrite Hn. reflexivity.
Qed.

Lemma filter_key_positive (q : Q) (recs : list StockRecommendation) :
  filter (has_key confidence_score q) (filter is_positive recs) =
  if Qle_bool q 0 then [] else filter (has_key confidence_score q) recs.
Proof.
  induction recs as [|r recs IH]; [destruct (Qle_bool q 0); reflexivity|].
  cbn [filter]. unfold is_positive at 1.
  destruct (Qle_bool (confidence_score r) 0) eqn:Hr; cbn [negb filter];
    destruct (has_key confidence_score q r) eqn:Hk;
    destruct (Qle_bool q 0) eqn:Hq; rewrite IH; try reflexivity; exfalso;
    unfold has_key in Hk; apply Qeq_bool_iff in Hk.
  - rewrite Hk in Hr. congruence.
  - rewrite Hk in Hr. congruence.
Qed.

(** C5: the output is sorted by non-increasing score, and the records of
    any one score appear in the output in their universe order: they are
    the first so many of the records with that score that the loop
    assembled, and the loop assembles its records in universe order. *)
Theorem ranker_sorted_and_stable (universe : list string) (top_n : Z) :
  let out := generate_recommendations json_loads W universe top_n in
  let assembled := recommendations (run_loop json_loads W universe) in
  assembled = flat_map (records_of json_loads W) universe /\
  StronglySorted (desc confidence_score) out /\
  (forall q : Q, exists later,
     filter (has_key confidence_score q) assembled =
     filter (has_key confidence_score q) out ++ later).
Proof.
  cbv zeta. split; [rewrite run_loop_spec; reflexivity|].
  unfold generate_recommendations.
  set (recs := recommendations (run_loop json_loads W universe)).
  destruct (rank_prefix recs top_n) as [rest Hrest]. split.
  - apply (sorted_prefix confidence_score _ rest). rewrite <- Hrest.
    apply sort_desc_sorted.
  - intros q.
    assert (Hst : filter (has_key confidence_score q) (filter is_positive recs) =
                  filter (has_key confidence_score q) (rank recs top_n)
                  ++ filter (has_key confidence_score q) rest).
    { rewrite <- filter_app, <- Hrest. symmetry. apply sort_desc_stable. }
    rewrite filter_key_positive in Hst. destruct (Qle_bool q 0).
    + symmetry in Hst. apply app_eq_nil in Hst as [-> _].
      eexists. reflexivity.
    + eexists. exact Hst.
Qed.

Lemma records_symbols_nodup (universe : list string) :
  NoDup universe ->
  NoDup (map symbol (flat_map (records_of json_loads W) universe)).
Proof.
  induction 1 as [|sym universe Hnotin Hnd IH]; [constructor|].
  cbn [flat_map]. rewrite map_app.
  destruct (records_of json_loads W sym) as [|r [|r' l]] eqn:Hr.
  - exact IH.
  - cbn. constructor; [|exact IH].
    assert (Hsym : symbol r = sym).
    { apply (records_of_symbol sym r). rewrite Hr. left. reflexivity. }
    rewrite Hsym. intros Hin. apply in_map_iff in Hin as [r2 [Heq Hin]].
    apply in_flat_map in Hin as [sym2 [Hin2 Hr2]].
    apply records_of_symbol in Hr2 as [Hs2 _]. congruence.
  - unfold records_of in Hr. destruct (analyze json_loads W sym) as [[?|]|?]; discriminate.
Qed.

(** Dropping the non-positive records keeps the symbols distinct. *)
Lemma positive_symbols_nodup (recs : list StockRecommendation) :
  NoDup (map symbol recs) -> NoDup (map symbol (filter is_positive recs)).
Proof.
  induction recs as [|r recs IH]; cbn [map filter]; [constructor|].
  intros Hnd. apply NoDup_cons_iff in Hnd as [Hfresh Hnd].
  destruct (is_positive r); [|exact (IH Hnd)].
  cbn [map]. apply NoDup_cons; [|exact (IH Hnd)].
  intros Hin. apply Hfresh. apply in_map_iff in Hin as [r' [Hsym Hin]].
  apply filter_In in Hin as [Hin _]. rewrite <- Hsym. apply in_map. exact Hin.
Qed.

Lemma records_multiplicity (universe : list string) (sym : string) :
  (count_occ string_dec (map symbol (flat_map (records_of json_loads W) universe)) sym
   <= count_occ string_dec universe sym)%nat.
Proof.
  induction universe as [|c universe IH]; [apply Nat.le_refl|].
  cbn [flat_map]. rewrite map_app, count_occ_app.
  assert (Hone : (count_occ string_dec (map symbol (records_of json_loads W c)) sym
                  <= if string_dec c sym then 1 else 0)%nat).
  { destruct (records_of json_loads W c) as [|r [|r' l]] eqn:Hr.
    - cbn. lia.
    - assert (Hsym : symbol r = c).
      { apply (records_of_symbol c r). rewrite Hr. left. reflexivity. }
      cbn [map count_occ]. rewrite Hsym. destruct (string_dec c sym); lia.
    - unfold records_of in Hr.
      destruct (analyze json_loads W c) as [[?|]|?]; discriminate. }
  cbn [count_occ]. destruct (string_dec c sym); lia.
Qed.

Lemma positive_multiplicity (recs : list StockRecommendation) (sym : string) :
  (count_occ string_dec (map symbol (filter is_positive recs)) sym
   <= count_occ string_dec (map symbol recs) sym)%nat.
Proof.
  induction recs as [|r recs IH]; [apply Nat.le_refl|].
  cbn [filter map]. destruct (is_positive r); cbn [map count_occ];
    destruct (string_dec (symbol r) sym); lia.
Qed.

(** A symbol is emitted at most as often as the universe lists it. *)
Lemma symbol_multiplicity (universe : list string) (top_n : Z) (sym : string) :
  (count_occ string_dec
     (map symbol (generate_recommendations json_loads W universe top_n)) sym
   <= count_occ string_dec universe sym)%nat.
Proof.
  unfold generate_recommendations.
  assert (Hrec : (count_occ string_dec
                    (map symbol (recommendations (run_loop json_loads W universe))) sym
                  <= count_occ string_dec universe sym)%nat).
  { rewrite run_loop_spec. apply records_multiplicity. }
  set (recs := recommendations (run_loop json_loads W universe)) in *.
  destruct (rank_prefix recs top_n) as [rest Hrest].
  assert (Hperm : Permutation
                    (map symbol (sort_desc confidence_score (filter is_positive recs)))
                    (map symbol (filter is_positive recs)))
    by apply Permutation_map, sort_desc_perm.
  rewrite (Permutation_count_occ string_dec) in Hperm. specialize (Hperm sym).
  rewrite Hrest, map_app, count_occ_app in Hperm.
  pose proof (positive_multiplicity recs sym). lia.
Qed.

(** C10, as the code has it: the loop never merges candidates, so the
    symbols of the output are pairwise distinct when the entries of the
    universe are. *)
Theorem symbols_unique_without_duplicates (universe : list string) (top_n : Z) :
  NoDup universe ->
  NoDup (map symbol (generate_recommendations json_loads W universe top_n)).
Proof.
  intros Hnd. unfold generate_recommendations.
  destruct (rank_prefix (recommendations (run_loop json_loads W universe)) top_n)
    as [rest Hrest].
  apply (NoDup_app_remove_r _ (map symbol rest)). rewrite <- map_app, <- Hrest.
  eapply Permutation_NoDup.
  - apply Permutation_map, Permutation_sym, sort_desc_perm.
  - apply positive_symbols_nodup. rewrite run_loop_spec. cbn [recommendations].
    apply records_symbols_nodup, Hnd.
Qed.

(** With no evidence for any candidate, be it that nothing was found or
    that collection raised, the pipeline returns the empty list: it does not
    raise. *)
Theorem unavailable_data_gives_empty_list (universe : list string) (top_n : Z) :
  (forall sym, In sym universe ->
     collect_titles W sym = Ok [] \/ exists e, collect_titles W sym = Raise e) ->
  generate_recommendations json_loads W universe top_n = [].
Proof.
  intros Hnone. unfold generate_recommendations. rewrite run_loop_spec.
  cbn [recommendations].
  assert (Hrecs : flat_map (records_of json_loads W) universe = []).
  { induction universe as [|c universe IH]; [reflexivity|].
    cbn [flat_map]. rewrite IH by (intros sym Hin; apply Hnone; right; exact Hin).
    rewrite app_nil_r. unfold records_of, analyze, get_headline_sentiment.
    destruct (Hnone c (or_introl eq_refl)) as [Hc | [e Hc]]; rewrite Hc; reflexivity. }
  rewrite Hrecs. unfold rank, slice_to. cbn [filter sort_desc].
  destruct (0 <=? top_n); apply firstn_nil.
Qed.

(** The contract of the ranker: for a non-negative [top_n] the output has at
    most [top_n] records. *)
Theorem at_most_top_n (universe : list string) (top_n : Z) :
  0 <= top_n ->
  Z.of_nat (List.length (generate_recommendations json_loads W universe top_n)) <= top_n.
Proof.
  intros Hn. unfold generate_recommendations. rewrite rank_length. cbv zeta.
  apply Z.leb_le in Hn. rewrite Hn. apply Z.le_min_l.
Qed.

End Loop.

(** ** Headline collection *)

Section Collection.

Variable json_loads : string -> result PyVal.
Variable W : Adapters.

Lemma mapM_length {A B : Type} (f : A -> result B) (l : list A) (l' : list B) :
  mapM f l = Ok l' -> List.length l' = List.length l.
Proof.
  revert l'. induction l as [|a l IH]; intros l'; cbn [mapM].
  - intros [= <-]. reflexivity.
  - destruct (f a) as [b|]; cbn [bind]; [|discriminate].
    destruct (mapM f l) as [bs|]; cbn [bind]; [|discriminate].
    intros [= <-]. cbn [List.length]. f_equal. apply IH. reflexivity.
Qed.

(** The news adapter is guarded: disabled, or failing in its request, it
    hands back the empty list. *)
Lemma news_adapter_guarded (query : string) (days_back : Z) :
  (news_enabled W = false \/ exists e, news_http W query days_back = Raise e) ->
  get_trending_news W query days_back = PyList [].
Proof.
  unfold get_trending_news. intros [-> | [e He]]; [reflexivity|].
  rewrite He. destruct (news_enabled W); reflexivity.
Qed.

(** With the news adapter down the candidate is still evaluated, on the
    search items alone. *)
Lemma news_failure_keeps_search_items (sym : string) (found : GoogleSearchResults) :
  (news_enabled W = false \/ exists e, news_http W sym 5 = Raise e) ->
  google_search W (sym ++ " stock news")%string 5 0 "en" true false = Ok found ->
  collect_titles W sym = Ok (map (fun r => PyStr (title_or_empty r)) (results found)).
Proof.
  intros Hnews Hsearch. unfold collect_titles.
  rewrite (news_adapter_guarded sym 5 Hnews). cbn [py_iter bind mapM].
  rewrite Hsearch. reflexivity.
Qed.

(** The search adapter has no guard of its own: it raises what the
    generator raises. *)
Lemma google_search_raises (query language : string) (max_results start_number : Z)
  (advanced unique : bool) (found : list GoogleSearchResult) (e : PyExc) :
  let run := web_search W query max_results language advanced start_number unique in
  mapM (to_search_result advanced) (yielded run) = Ok found ->
  failure run = Some e ->
  google_search W query max_results start_number language advanced unique = Raise e.
Proof.
  cbv zeta. intros Hitems Hfail. unfold google_search.
  rewrite Hitems. cbn [bind]. rewrite Hfail. reflexivity.
Qed.

(** C1, at the input where the code departs from it: the news adapter has
    delivered its items and the search adapter raises.  The exception
    leaves [get_headline_sentiment]; the candidate is dropped and logged
    instead of being scored on the news items. *)
Theorem search_failure_aborts_candidate
  (sym : string) (articles news_titles : list PyVal) (e : PyExc) :
  py_iter (get_trending_news W sym 5) = Ok articles ->
  mapM (fun a => py_get a "title" (PyStr EmptyString)) articles = Ok news_titles ->
  google_search W (sym ++ " stock news")%string 5 0 "en" true false = Raise e ->
  collect_titles W sym = Raise e /\
  get_headline_sentiment W sym = Raise e /\
  analyze json_loads W sym = Raise e /\
  records_of json_loads W sym = [] /\
  errors_of json_loads W sym = [(sym, e)].
Proof.
  intros Hiter Htitles Hsearch.
  assert (Hc : collect_titles W sym = Raise e).
  { unfold collect_titles. rewrite Hiter. cbn [bind]. rewrite Htitles. cbn [bind].
    rewrite Hsearch. reflexivity. }
  assert (Hg : get_headline_sentiment W sym = Raise e).
  { unfold get_headline_sentiment. rewrite Hc. reflexivity. }
  assert (Ha : analyze json_loads W sym = Raise e).
  { unfold analyze. rewrite Hg. reflexivity. }
  repeat split; try assumption.
  - unfold records_of. rewrite Ha. reflexivity.
  - unfold errors_of. rewrite Ha. reflexivity.
Qed.

Lemma google_search_ok (query language : string) (max_results start_number : Z)
  (advanced unique : bool) (found : GoogleSearchResults) :
  google_search W query max_results start_number language advanced unique = Ok found ->
  let run := web_search W query max_results language advanced start_number unique in
  failure run = None /\
  mapM (to_search_result advanced) (yielded run) = Ok (results found) /\
  result_count found = Z.of_nat (List.length (yielded run)).
Proof.
  unfold google_search. cbv zeta.
  destruct (mapM _ _) as [items|] eqn:Hitems; cbn [bind]; [|discriminate].
  destruct (failure _); [discriminate|]. intros [= <-].
  cbn [results result_count]. repeat split.
  rewrite (mapM_length _ _ _ Hitems). reflexivity.
Qed.

(** C9: the collected headlines are the titles of the news articles, in
    the order the adapter returned them, followed by the titles of the
    search results, in the order the generator yielded them; nothing is
    merged or dropped.  When the news titles are strings the sentiment is
    returned, and its sample is the first three items of that list (a news
    title of another type makes the scorer raise, and then there is no
    sample). *)
Theorem headlines_are_news_then_search
  (sym : string) (articles news_titles : list PyVal) (found : GoogleSearchResults) :
  py_iter (get_trending_news W sym 5) = Ok articles ->
  mapM (fun a => py_get a "title" (PyStr EmptyString)) articles = Ok news_titles ->
  google_search W (sym ++ " stock news")%string 5 0 "en" true false = Ok found ->
  let search_titles := map (fun r => PyStr (title_or_empty r)) (results found) in
  let run := web_search W (sym ++ " stock news")%string 5 "en" true 0 false in
  collect_titles W sym = Ok (news_titles ++ search_titles) /\
  mapM (to_search_result true) (yielded run) = Ok (results found) /\
  List.length (news_titles ++ search_titles) =
    (List.length articles + List.length (yielded run))%nat /\
  (forall s : Sentiment,
     get_headline_sentiment W sym = Ok s ->
     sample_headlines s = firstn 3 (news_titles ++ search_titles) /\
     total_headlines s = Z.of_nat (List.length (news_titles ++ search_titles))) /\
  (forallb is_str news_titles = true ->
   exists s : Sentiment,
     get_headline_sentiment W sym = Ok s /\
     sample_headlines s = firstn 3 (news_titles ++ search_titles) /\
     total_headlines s = Z.of_nat (List.length (news_titles ++ search_titles))) /\
  (forallb is_str news_titles = false ->
   get_headline_sentiment W sym = Raise AttributeError).
Proof.
  intros Hiter Htitles Hsearch. cbv zeta.
  set (search_titles := map (fun r => PyStr (title_or_empty r)) (results found)).
  assert (Hc : collect_titles W sym = Ok (news_titles ++ search_titles)).
  { unfold collect_titles. rewrite Hiter. cbn [bind]. rewrite Htitles. cbn [bind].
    rewrite Hsearch. reflexivity. }
  assert (Hg : get_headline_sentiment W sym =
               score_titles sym (news_titles ++ search_titles)).
  { unfold get_headline_sentiment. rewrite Hc. reflexivity. }
  destruct (google_search_ok _ _ _ _ _ _ _ Hsearch) as [_ [Hitems _]].
  split; [exact Hc|]. split; [exact Hitems|]. split; [|split; [|split]].
  - subst search_titles.
    rewrite length_app, length_map, (mapM_length _ _ _ Htitles),
      (mapM_length _ _ _ Hitems). reflexivity.
  - intros s Hs. rewrite Hg in Hs. unfold score_titles in Hs.
    destruct (count_hits positive_words _); cbn [bind] in Hs; [|discriminate].
    destruct (count_hits negative_words _); cbn [bind] in Hs; [|discriminate].
    injection Hs as <-. split; reflexivity.
  - intros Hstr. destruct (all_strings_map news_titles Hstr) as [items Hitems'].
    assert (Hall : news_titles ++ search_titles =
                   map PyStr (items ++ map title_or_empty (results found))).
    { subst search_titles. rewrite Hitems', map_app, map_map. reflexivity. }
    eexists. split; [rewrite Hg, Hall; apply score_titles_strings|].
    cbn [sample_headlines total_headlines]. rewrite <- Hall, <- (length_map PyStr), <- Hall.
    split; reflexivity.
  - intros Hbad. rewrite Hg. unfold score_titles, positive_words.
    rewrite count_hits_non_string; [reflexivity|].
    rewrite forallb_app, Hbad. reflexivity.
Qed.

(** ** Enrichment *)

(** What [enrich] does on every lookup response. *)
Lemma enrich_cases (sym : string) (company_info : PyVal) :
  enrich json_loads sym company_info =
  match company_info with
  | PyStr s =>
      match json_loads s with
      | Ok (PyDict items) =>
          Ok (match dict_lookup "Name" items with Some v => v | None => PyStr sym end,
              match dict_lookup "Sector" items with Some v => v | None => PyStr "Unknown" end)
      | Ok _ => Raise AttributeError
      | Raise _ => Ok (PyStr sym, PyStr "Unknown")
      end
  | _ => Ok (PyStr sym, PyStr "Unknown")
  end.
Proof.
  destruct company_info; try reflexivity.
  unfold enrich, _is_valid_json.
  destruct (json_loads s) as [v|e]; cbn [bind try_except]; [|reflexivity].
  destruct v; reflexivity.
Qed.

(** C2, at the input where the code departs from it: a lookup response
    that is a JSON document but not an object.  It passes [_is_valid_json],
    and the [.get] on the decoded value raises. *)
Theorem enrich_raises_on_non_object (sym s : string) (v : PyVal) :
  json_loads s = Ok v ->
  is_dict v = false ->
  enrich json_loads sym (PyStr s) = Raise AttributeError.
Proof.
  intros Hv Hdict. rewrite enrich_cases, Hv.
  destruct v; try reflexivity. discriminate.
Qed.

(** A lookup response that is not a string, or is a string that does not
    decode, gives the fallback pair. *)
Theorem enrich_falls_back (sym : string) (company_info : PyVal) :
  (forall s, company_info = PyStr s -> exists e, json_loads s = Raise e) ->
  enrich json_loads sym company_info = Ok (PyStr sym, PyStr "Unknown").
Proof.
  intros Hbad. rewrite enrich_cases. destruct company_info; try reflexivity.
  destruct (Hbad s eq_refl) as [e ->]. reflexivity.
Qed.

End Collection.

(** ** The pipeline on the concrete environment *)

(** The end-to-end scenario: [AAA] has one positive headline, [BBB] has
    none; the output is the one record for [AAA], with score 1. *)
Example end_to_end_scenario :
  map (fun r => (symbol r, confidence_score r))
      (generate_recommendations RefJson.loads demo_world ["AAA"; "BBB"] 10)
  = [("AAA", 1%Q)].
Proof. reflexivity. Qed.

(** The scorer on the first example of the specification. *)
Example single_positive_headline :
  score_titles "AAA" [PyStr "Stock surges on strong earnings"] =
  Ok (mkSentiment "AAA" 1 0 1 1 [PyStr "Stock surges on strong earnings"]).
Proof. reflexivity. Qed.

(** Each stage of the evaluation of a candidate can raise: the search
    adapter fails for [ERR], the one news title of [NUL] is [None] and has no
    [lower], and the lookup document of [LST] is a JSON array. *)
Example every_stage_can_raise :
  raised_while_evaluating RefJson.loads demo_world "ERR" (RaisedBy "requests.HTTPError") /\
  raised_while_evaluating RefJson.loads demo_world "NUL" AttributeError /\
  raised_while_evaluating RefJson.loads demo_world "LST" AttributeError.
Proof.
  split; [apply raised_collecting; reflexivity|]. split.
  - apply (raised_scoring _ _ _ _ [PyNone]); reflexivity.
  - apply (raised_enriching _ _ _ _
             (mkSentiment "LST" 1 0 1 1 [PyStr "LST posts strong growth"])
             (PyStr "[]")); try reflexivity. discriminate.
Qed.

Lemma search_failure_aborts_candidate_witness :
  py_iter (get_trending_news demo_world "ERR" 5)
    = Ok [PyDict [("title", PyStr "ERR profit beats forecasts")]] /\
  google_search demo_world "ERR stock news" 5 0 "en" true false
    = Raise (RaisedBy "requests.HTTPError") /\
  analyze RefJson.loads demo_world "ERR" = Raise (RaisedBy "requests.HTTPError") /\
  generate_recommendations RefJson.loads demo_world ["ERR"] 10 = [].
Proof.
  split; [reflexivity|]. split; [reflexivity|]. split; [|reflexivity].
  apply (search_failure_aborts_candidate RefJson.loads demo_world "ERR"
           [PyDict [("title", PyStr "ERR profit beats forecasts")]]
           [PyStr "ERR profit beats forecasts"]
           (RaisedBy "requests.HTTPError")); reflexivity.
Defined.

Lemma enrich_raises_on_non_object_witness :
  RefJson.loads "[]" = Ok (PyList []) /\
  enrich RefJson.loads "LST" (PyStr "[]") = Raise AttributeError /\
  analyze RefJson.loads demo_world "LST" = Raise AttributeError.
Proof.
  split; [reflexivity|]. split; [|reflexivity].
  apply (enrich_raises_on_non_object RefJson.loads "LST" "[]" (PyList []));
    reflexivity.
Defined.

Lemma failing_candidate_is_isolated_witness :
  raised_while_evaluating RefJson.loads demo_world "ERR" (RaisedBy "requests.HTTPError") /\
  generate_recommendations RefJson.loads demo_world (["AAA"] ++ "ERR" :: ["GGG"]) 10 =
  generate_recommendations RefJson.loads demo_world (["AAA"] ++ ["GGG"]) 10.
Proof.
  assert (Hraised : raised_while_evaluating RefJson.loads demo_world "ERR"
                      (RaisedBy "requests.HTTPError")).
  { apply raised_collecting. reflexivity. }
  split; [exact Hraised|].
  apply (failing_candidate_is_isolated RefJson.loads demo_world
           ["AAA"] ["GGG"] "ERR" (RaisedBy "requests.HTTPError") 10 Hraised).
Defined.

Lemma no_evidence_no_record_witness :
  collect_titles demo_world "BBB" = Ok [] /\
  analyze RefJson.loads demo_world "BBB" = Ok None.
Proof.
  split; [reflexivity|].
  apply (no_evidence_no_record RefJson.loads demo_world ["AAA"; "BBB"] "BBB" 10).
  reflexivity.
Defined.

Lemma headlines_are_news_then_search_witness :
  collect_titles demo_world "MIX" =
    Ok ([PyStr "MIX profit up"; PyStr "MIX faces lawsuit"]
        ++ [PyStr "MIX profit up"; PyStr EmptyString]) /\
  forallb is_str [PyStr "MIX profit up"; PyStr "MIX faces lawsuit"] = true /\
  exists s : Sentiment,
    get_headline_sentiment demo_world "MIX" = Ok s /\
    sample_headlines s =
      [PyStr "MIX profit up"; PyStr "MIX faces lawsuit"; PyStr "MIX profit up"] /\
    total_headlines s = 4.
Proof.
  destruct (headlines_are_news_then_search demo_world "MIX"
              [PyDict [("title", PyStr "MIX profit up")];
               PyDict [("title", PyStr "MIX faces lawsuit")]]
              [PyStr "MIX profit up"; PyStr "MIX faces lawsuit"]
              (mkGoogleSearchResults 2
                 [mkGoogleSearchResult "https://example.org/mix/1"
                    (Some "MIX profit up") None;
                  mkGoogleSearchResult "https://example.org/mix/2" None None])
              eq_refl eq_refl eq_refl)
    as [Hcollect [_ [_ [_ [Hreturned _]]]]].
  split; [exact Hcollect|]. split; [reflexivity|].
  exact (Hreturned eq_refl).
Defined.

Lemma ranker_positive_and_min_length_witness :
  0 <= 1 /\
  Z.of_nat (List.length
              (generate_recommendations RefJson.loads demo_world ["AAA"; "GGG"; "BBB"] 1))
  = Z.min 1 (Z.of_nat (List.length
                         (filter is_positive
                            (recommendations
                               (run_loop RefJson.loads demo_world ["AAA"; "GGG"; "BBB"]))))).
Proof.
  split; [lia|].
  apply (ranker_positive_and_min_length RefJson.loads demo_world ["AAA"; "GGG"; "BBB"] 1).
  lia.
Defined.

Lemma symbols_unique_without_duplicates_witness :
  NoDup ["AAA"; "GGG"] /\
  NoDup (map symbol (generate_recommendations RefJson.loads demo_world ["AAA"; "GGG"] 10)).
Proof.
  assert (Hnd : NoDup ["AAA"; "GGG"]).
  { constructor; [intros [H|[]]; discriminate|].
    constructor; [intros []|constructor]. }
  split; [exact Hnd|].
  apply (symbols_unique_without_duplicates RefJson.loads demo_world ["AAA"; "GGG"] 10 Hnd).
Defined.

(** A negative [top_n] is outside the counts: as a slice bound it cuts
    from the end.  With two positive records and [top_n = -1] the output
    has one record. *)
Lemma negative_top_n_length :
  let out := generate_recommendations RefJson.loads demo_world ["AAA"; "GGG"] (-1) in
  let k := Z.of_nat (List.length
             (filter is_positive
                (recommendations (run_loop RefJson.loads demo_world ["AAA"; "GGG"])))) in
  k = 2 /\
  Z.of_nat (List.length out) = 1 /\
  Z.min (-1) k = -1 /\
  Z.of_nat (List.length out) <> Z.min (-1) k.
Proof.
  cbv zeta. repeat split. vm_compute. discriminate.
Qed.

(** C10 as stated fails on the universe of the program itself, which
    lists [AMZN] twice: when that symbol has positive headlines, both of
    its entries are emitted. *)
Lemma duplicate_symbols_emitted :
  count_occ string_dec stock_universe "AMZN" = 2%nat /\
  map symbol (generate_recommendations RefJson.loads demo_world stock_universe 10)
    = ["AMZN"; "AMZN"] /\
  ~ NoDup (map symbol
             (generate_recommendations RefJson.loads demo_world stock_universe 10)).
Proof.
  assert (Hout : map symbol
                   (generate_recommendations RefJson.loads demo_world stock_universe 10)
                 = ["AMZN"; "AMZN"]) by (vm_compute; reflexivity).
  split; [vm_compute; reflexivity|]. split; [exact Hout|].
  rewrite Hout. intros Hnd. inversion Hnd as [|? ? Hnotin _]; subst.
  apply Hnotin. left. reflexivity.
Qed.

Lemma unavailable_data_gives_empty_list_witness :
  generate_recommendations RefJson.loads demo_world ["BBB"; "ERR"] 10 = [].
Proof.
  apply (unavailable_data_gives_empty_list RefJson.loads demo_world ["BBB"; "ERR"] 10).
  intros sym [<- | [<- | []]].
  - left. reflexivity.
  - right. exists (RaisedBy "requests.HTTPError"). reflexivity.
Defined.

Lemma at_most_top_n_witness :
  0 <= 1 /\
  Z.of_nat (List.length
              (generate_recommendations RefJson.loads demo_world ["AAA"; "GGG"] 1)) <= 1.
Proof.
  split; [lia|].
  apply (at_most_top_n RefJson.loads demo_world ["AAA"; "GGG"] 1). lia.
Defined.

Lemma enrich_falls_back_witness :
  enrich RefJson.loads "GGG" (PyStr "Error fetching company info for GGG")
  = Ok (PyStr "GGG", PyStr "Unknown").
Proof.
  apply (enrich_falls_back RefJson.loads "GGG"
           (PyStr "Error fetching company info for GGG")).
  intros s [= <-]. exists RefJson.JSONDecodeError. reflexivity.
Defined.

Lemma news_failure_keeps_search_items_witness :
  news_http demo_world "GGG" 5 = Raise (RaisedBy "requests.ConnectionError") /\
  collect_titles demo_world "GGG" = Ok [PyStr "GGG shares surge to record"].
Proof.
  split; [reflexivity|].
  apply (news_failure_keeps_search_items demo_world "GGG"
           (mkGoogleSearchResults 1
              [mkGoogleSearchResult "https://example.org/ggg"
                 (Some "GGG shares surge to record") (Some "Markets")])).
  - right. exists (RaisedBy "requests.ConnectionError"). reflexivity.
  - reflexivity.
Defined.

Lemma sentiment_invariant_witness :
  score_titles "MIX" [PyStr "MIX profit up"; PyStr "MIX faces lawsuit"]
    = Ok (mkSentiment "MIX" 1 1 2 (0 # 2)
            [PyStr "MIX profit up"; PyStr "MIX faces lawsuit"]) /\
  (-1 <= 0 # 2 <= 1)%Q.
Proof.
  split; [reflexivity|].
  apply (sentiment_invariant "MIX" [PyStr "MIX profit up"; PyStr "MIX faces lawsuit"]
           (mkSentiment "MIX" 1 1 2 (0 # 2)
              [PyStr "MIX profit up"; PyStr "MIX faces lawsuit"])).
  reflexivity.
Defined.

(** * Further properties of the code *)

(** ** Matching and counting in the scorer *)

Lemma prefix_iff_append (w t : string) :
  String.prefix w t = true <-> exists post, t = (w ++ post)%string.
Proof.
  revert t. induction w as [|c w IH]; intros t.
  - split; [intros _; exists t; reflexivity|]. intros _. destruct t; reflexivity.
  - destruct t as [|d t]; cbn [String.prefix].
    + split; [discriminate | intros [post Hpost]; discriminate].
    + destruct (Ascii.ascii_dec c d) as [<- | Hneq].
      * rewrite IH. split; intros [post Hpost]; exists post.
        -- cbn. f_equal. exact Hpost.
        -- cbn in Hpost. injection Hpost as Hpost. exact Hpost.
      * split; [discriminate|]. intros [post Hpost]. cbn in Hpost.
        injection Hpost as Hcd _. congruence.
Qed.

(** [word in text] is the substring test. *)
Lemma contains_iff_substring (w t : string) :
  contains w t = true <-> exists pre post, t = (pre ++ w ++ post)%string.
Proof.
  induction t as [|c t IH]; cbn [contains].
  - rewrite prefix_iff_append. split.
    + intros [post Hpost]. exists EmptyString, post. exact Hpost.
    + intros [pre [post Hpost]]. destruct pre; [|discriminate].
      exists post. exact Hpost.
  - rewrite orb_true_iff, prefix_iff_append, IH. split.
    + intros [[post Hpost] | [pre [post Hpost]]].
      * exists EmptyString, post. exact Hpost.
      * exists (String c pre), post. cbn. f_equal. exact Hpost.
    + intros [pre [post Hpost]]. destruct pre as [|d pre].
      * left. exists post. exact Hpost.
      * right. cbn in Hpost. injection Hpost as _ Hpost.
        exists pre, post. exact Hpost.
Qed.

(** Matching is by substring of the lower-cased item, with no word
    boundaries: an item mentions a lexicon exactly when one of the lexicon's
    words occurs somewhere inside its lower-cased text. *)
Theorem mentions_iff_substring (words : list string) (item : string) :
  mentions words item = true <->
  exists word pre post,
    In word words /\ lower item = (pre ++ word ++ post)%string.
Proof.
  unfold mentions, any_in. rewrite existsb_exists. split.
  - intros [word [Hin Hc]]. apply contains_iff_substring in Hc as [pre [post Heq]].
    exists word, pre, post. split; assumption.
  - intros [word [pre [post [Hin Heq]]]]. exists word. split; [exact Hin|].
    apply contains_iff_substring. exists pre, post. exact Heq.
Qed.

Lemma lower_ascii_idempotent (c : ascii) : lower_ascii (lower_ascii c) = lower_ascii c.
Proof.
  destruct c as [[] [] [] [] [] [] [] []]; reflexivity.
Qed.

Lemma lower_idempotent (s : string) : lower (lower s) = lower s.
Proof.
  induction s as [|c s IH]; [reflexivity|].
  cbn [lower]. rewrite lower_ascii_idempotent, IH. reflexivity.
Qed.

Lemma mention_count_lower (words : list string) (items items' : list string) :
  map lower items = map lower items' ->
  mention_count words items = mention_count words items'.
Proof.
  revert items'. induction items as [|t items IH]; intros [|t' items'] Heq;
    try discriminate; [reflexivity|].
  cbn [map] in Heq. injection Heq as Ht Hrest.
  rewrite !mention_count_cons, (IH items' Hrest).
  unfold mentions. rewrite Ht. reflexivity.
Qed.

(** The score is case-insensitive: two lists whose items differ only in
    letter case get the same counters and the same score. *)
Theorem score_case_insensitive (sym : string) (items items' : list string) :
  map lower items = map lower items' ->
  exists s s' : Sentiment,
    score_titles sym (map PyStr items) = Ok s /\
    score_titles sym (map PyStr items') = Ok s' /\
    positive_headlines s = positive_headlines s' /\
    negative_headlines s = negative_headlines s' /\
    total_headlines s = total_headlines s' /\
    sentiment_score s = sentiment_score s'.
Proof.
  intros Heq. do 2 eexists.
  split; [apply score_titles_strings|]. split; [apply score_titles_strings|].
  cbn [positive_headlines negative_headlines total_headlines sentiment_score].
  rewrite (mention_count_lower positive_words items items' Heq).
  rewrite (mention_count_lower negative_words items items' Heq).
  assert (Hlen : List.length items = List.length items').
  { rewrite <- (length_map lower items), Heq. apply length_map. }
  rewrite Hlen. repeat split.
Qed.

Lemma mention_count_perm (words : list string) (items items' : list string) :
  Permutation items items' ->
  mention_count words items = mention_count words items'.
Proof.
  induction 1 as [|t l l' _ IH|a b l|l1 l2 l3 _ IH1 _ IH2].
  - reflexivity.
  - rewrite !mention_count_cons, IH. reflexivity.
  - rewrite !mention_count_cons. lia.
  - congruence.
Qed.

(** The score does not depend on the order of the headlines. *)
Theorem score_order_independent (sym : string) (items items' : list string) :
  Permutation items items' ->
  exists s s' : Sentiment,
    score_titles sym (map PyStr items) = Ok s /\
    score_titles sym (map PyStr items') = Ok s' /\
    positive_headlines s = positive_headlines s' /\
    negative_headlines s = negative_headlines s' /\
    total_headlines s = total_headlines s' /\
    sentiment_score s = sentiment_score s'.
Proof.
  intros Hperm. do 2 eexists.
  split; [apply score_titles_strings|]. split; [apply score_titles_strings|].
  cbn [positive_headlines negative_headlines total_headlines sentiment_score].
  rewrite (mention_count_perm positive_words items items' Hperm).
  rewrite (mention_count_perm negative_words items items' Hperm).
  rewrite (Permutation_length Hperm). repeat split.
Qed.

Lemma mention_count_app (words : list string) (l1 l2 : list string) :
  mention_count words (l1 ++ l2) = mention_count words l1 + mention_count words l2.
Proof.
  induction l1 as [|t l1 IH]; [reflexivity|].
  cbn [app]. rewrite !mention_count_cons, IH. lia.
Qed.

(** The counters are additive over concatenation: news headlines and
    search headlines weigh the same, item by item. *)
Theorem counters_additive (sym : string) (news found : list string) :
  exists s s1 s2 : Sentiment,
    score_titles sym (map PyStr (news ++ found)) = Ok s /\
    score_titles sym (map PyStr news) = Ok s1 /\
    score_titles sym (map PyStr found) = Ok s2 /\
    positive_headlines s = positive_headlines s1 + positive_headlines s2 /\
    negative_headlines s = negative_headlines s1 + negative_headlines s2 /\
    total_headlines s = total_headlines s1 + total_headlines s2.
Proof.
  do 3 eexists. do 3 (split; [apply score_titles_strings|]).
  cbn [positive_headlines negative_headlines total_headlines].
  rewrite !mention_count_app, length_app. repeat split. lia.
Qed.

(** The scorer returns exactly when every title is a string; a title of
    any other type (a [null] title of a news article, say) makes it raise
    [AttributeError]. *)
Theorem scorer_returns_iff_all_strings (sym : string) (titles : list PyVal) :
  (forallb is_str titles = true <-> exists s, score_titles sym titles = Ok s) /\
  (forallb is_str titles = false <-> score_titles sym titles = Raise AttributeError).
Proof.
  destruct (forallb is_str titles) eqn:Hall.
  - destruct (all_strings_map titles Hall) as [items ->].
    rewrite score_titles_strings. split; split; try discriminate.
    + intros _. eexists. reflexivity.
    + reflexivity.
  - assert (Hraise : score_titles sym titles = Raise AttributeError).
    { unfold score_titles, positive_words.
      rewrite (count_hits_non_string _ _ titles Hall). reflexivity. }
    rewrite Hraise. split; split; try discriminate; try reflexivity.
    intros [s Hs]. discriminate.
Qed.

Lemma mention_count_all (words : list string) (items : list string) :
  mention_count words items = Z.of_nat (List.length items) <->
  forallb (mentions words) items = true.
Proof.
  induction items as [|t items IH]; [split; reflexivity|].
  rewrite mention_count_cons. cbn [forallb List.length].
  pose proof (mention_count_bounds words items) as Hb.
  destruct (mentions words t); cbn [andb].
  - rewrite <- IH. lia.
  - split; [lia | discriminate].
Qed.

Lemma mention_count_none (words : list string) (items : list string) :
  mention_count words items = 0 <-> existsb (mentions words) items = false.
Proof.
  induction items as [|t items IH]; [split; reflexivity|].
  rewrite mention_count_cons. cbn [existsb].
  pose proof (mention_count_bounds words items) as Hb.
  destruct (mentions words t); cbn [orb].
  - split; [lia | discriminate].
  - rewrite <- IH. lia.
Qed.

(** The exact quotient of two integers, as a fraction. *)
Lemma quotient_as_fraction (n d : Z) :
  0 < d -> (inject_Z n / inject_Z d == n # Z.to_pos d)%Q.
Proof.
  intros Hd. destruct d as [|p|p]; try lia.
  unfold Qdiv, Qinv, Qmult, Qeq, inject_Z. cbn. lia.
Qed.

(** On a non-empty list the score is 1 exactly when every headline
    mentions the positive lexicon and none mentions the negative one. *)
Theorem score_is_one_iff (sym : string) (items : list string) (s : Sentiment) :
  items <> [] ->
  score_titles sym (map PyStr items) = Ok s ->
  ((sentiment_score s == 1)%Q <->
   forallb (mentions positive_words) items = true /\
   existsb (mentions negative_words) items = false).
Proof.
  intros Hne Hs. rewrite score_titles_strings in Hs. injection Hs as <-.
  cbn [sentiment_score]. cbv zeta.
  rewrite <- mention_count_all, <- mention_count_none.
  pose proof (mention_count_bounds positive_words items) as Hp.
  pose proof (mention_count_bounds negative_words items) as Hn.
  assert (Hlen : 0 < Z.of_nat (List.length items)).
  { destruct items; [congruence | cbn [List.length]; lia]. }
  apply Z.ltb_lt in Hlen as Hltb. rewrite Hltb.
  rewrite (quotient_as_fraction _ _ Hlen). unfold Qeq. cbn [Qnum Qden].
  rewrite Z2Pos.id by exact Hlen. lia.
Qed.

(** A headline that mentions the positive lexicon and not the negative one
    never lowers the score. *)
Theorem positive_headline_never_lowers (sym t : string) (items : list string) :
  mentions positive_words t = true ->
  mentions negative_words t = false ->
  exists s s' : Sentiment,
    score_titles sym (map PyStr items) = Ok s /\
    score_titles sym (map PyStr (t :: items)) = Ok s' /\
    (sentiment_score s <= sentiment_score s')%Q.
Proof.
  intros Hpos Hneg. do 2 eexists.
  split; [apply score_titles_strings|]. split; [apply score_titles_strings|].
  cbn [sentiment_score]. cbv zeta.
  rewrite !mention_count_cons, Hpos, Hneg. cbn [List.length].
  pose proof (mention_count_bounds positive_words items) as Hp.
  pose proof (mention_count_bounds negative_words items) as Hn.
  set (p := mention_count positive_words items) in *.
  set (n := mention_count negative_words items) in *.
  set (T := Z.of_nat (List.length items)) in *.
  replace (Z.of_nat (S (List.length items))) with (T + 1) by (subst T; lia).
  assert (HT1 : 0 < T + 1) by lia.
  apply Z.ltb_lt in HT1 as ->.
  destruct (Z.ltb_spec 0 T) as [HT|HT].
  - rewrite (quotient_as_fraction _ T HT), (quotient_as_fraction _ (T + 1)) by lia.
    unfold Qle. cbn [Qnum Qden]. rewrite !Z2Pos.id by lia. nia.
  - rewrite (quotient_as_fraction _ (T + 1)) by lia.
    unfold Qle. cbn [Qnum Qden]. lia.
Qed.

(** A headline that mentions neither lexicon pulls the score towards 0
    without changing its sign. *)
Theorem neutral_headline_dilutes (sym t : string) (items : list string) :
  mentions positive_words t = false ->
  mentions negative_words t = false ->
  exists s s' : Sentiment,
    score_titles sym (map PyStr items) = Ok s /\
    score_titles sym (map PyStr (t :: items)) = Ok s' /\
    ((0 <= sentiment_score s)%Q -> (0 <= sentiment_score s' <= sentiment_score s)%Q) /\
    ((sentiment_score s <= 0)%Q -> (sentiment_score s <= sentiment_score s' <= 0)%Q).
Proof.
  intros Hpos Hneg. do 2 eexists.
  split; [apply score_titles_strings|]. split; [apply score_titles_strings|].
  cbn [sentiment_score]. cbv zeta.
  rewrite !mention_count_cons, Hpos, Hneg. cbn [List.length].
  set (p := mention_count positive_words items) in *.
  set (n := mention_count negative_words items) in *.
  set (T := Z.of_nat (List.length items)) in *.
  replace (Z.of_nat (S (List.length items))) with (T + 1) by (subst T; lia).
  assert (HT0 : 0 <= T) by (subst T; lia).
  assert (HT1 : 0 < T + 1) by lia.
  apply Z.ltb_lt in HT1 as ->.
  rewrite (quotient_as_fraction _ (T + 1)) by lia.
  destruct (Z.ltb_spec 0 T) as [HT|HT].
  - rewrite (quotient_as_fraction _ T HT).
    unfold Qle. cbn [Qnum Qden]. rewrite !Z2Pos.id by lia. split; intros H; split; nia.
  - assert (T = 0) by lia. assert (Hp0 : p = 0).
    { pose proof (mention_count_bounds positive_words items). subst p T. lia. }
    assert (Hn0 : n = 0).
    { pose proof (mention_count_bounds negative_words items). subst n T. lia. }
    rewrite Hp0, Hn0. unfold Qle. cbn [Qnum Qden]. split; intros _; split; lia.
Qed.

(** ** Malformed news responses and the search tool *)

Section AdapterEdges.

Variable json_loads : string -> result PyVal.
Variable W : Adapters.

(** What [get_trending_news] returns when the request succeeded with an
    object that has an [articles] member. *)
Lemma trending_news_member (query : string) (days_back : Z)
  (body : list (string * PyVal)) (v : PyVal) :
  news_enabled W = true ->
  news_http W query days_back = Ok (PyDict body) ->
  dict_lookup "articles" body = Some v ->
  get_trending_news W query days_back = v.
Proof.
  intros Hen Hbody Hv. unfold get_trending_news.
  rewrite Hen, Hbody. cbn. rewrite Hv. reflexivity.
Qed.

(** The news adapter hands on whatever the [articles] member holds.  When
    that is not iterable ([null], a number), [get_headline_sentiment] raises
    [TypeError] before the search adapter is asked, and the candidate is
    dropped. *)
Theorem non_iterable_articles_abort (sym : string)
  (body : list (string * PyVal)) (v : PyVal) :
  news_enabled W = true ->
  news_http W sym 5 = Ok (PyDict body) ->
  dict_lookup "articles" body = Some v ->
  py_iter v = Raise TypeError ->
  get_headline_sentiment W sym = Raise TypeError /\
  records_of json_loads W sym = [] /\
  errors_of json_loads W sym = [(sym, TypeError)].
Proof.
  intros Hen Hbody Hv Hiter.
  assert (Hg : get_headline_sentiment W sym = Raise TypeError).
  { unfold get_headline_sentiment, collect_titles.
    rewrite (trending_news_member sym 5 body v Hen Hbody Hv), Hiter. reflexivity. }
  split; [exact Hg|].
  unfold records_of, errors_of, analyze. rewrite Hg. split; reflexivity.
Qed.

Lemma titles_raise_on_non_object (articles : list PyVal) :
  forallb is_dict articles = false ->
  mapM (fun a => py_get a "title" (PyStr EmptyString)) articles = Raise AttributeError.
Proof.
  induction articles as [|a articles IH]; [discriminate|].
  cbn [forallb mapM]. destruct a; cbn [is_dict andb py_get bind]; try reflexivity.
  intros Hrest. rewrite (IH Hrest). reflexivity.
Qed.

(** One entry of the article list that is not an object makes
    [get_headline_sentiment] raise [AttributeError]: the well-formed
    articles beside it are lost with it. *)
Theorem non_object_article_aborts (sym : string)
  (body : list (string * PyVal)) (articles : list PyVal) :
  news_enabled W = true ->
  news_http W sym 5 = Ok (PyDict body) ->
  dict_lookup "articles" body = Some (PyList articles) ->
  forallb is_dict articles = false ->
  get_headline_sentiment W sym = Raise AttributeError /\
  records_of json_loads W sym = [] /\
  errors_of json_loads W sym = [(sym, AttributeError)].
Proof.
  intros Hen Hbody Hv Hbad.
  assert (Hg : get_headline_sentiment W sym = Raise AttributeError).
  { unfold get_headline_sentiment, collect_titles.
    rewrite (trending_news_member sym 5 body _ Hen Hbody Hv). cbn [py_iter bind].
    rewrite (titles_raise_on_non_object articles Hbad). reflexivity. }
  split; [exact Hg|].
  unfold records_of, errors_of, analyze. rewrite Hg. split; reflexivity.
Qed.

(** Titles taken from search results are strings, so with the news adapter
    down the only way [get_headline_sentiment] can raise is through the
    search tool. *)
Theorem sentiment_fails_only_with_search (sym : string) (e : PyExc) :
  (news_enabled W = false \/ exists e', news_http W sym 5 = Raise e') ->
  (get_headline_sentiment W sym = Raise e <->
   google_search W (sym ++ " stock news")%string 5 0 "en" true false = Raise e).
Proof.
  intros Hnews. unfold get_headline_sentiment, collect_titles.
  rewrite (news_adapter_guarded W sym 5 Hnews). cbn [py_iter bind mapM].
  destruct (google_search W _ 5 0 "en" true false) as [found|e0]; cbn [bind app].
  - rewrite <- map_map, score_titles_strings. split; discriminate.
  - split; intros [= ->]; reflexivity.
Qed.

Lemma to_search_result_url (advanced : bool) (r : LibResult) (g : GoogleSearchResult) :
  to_search_result advanced r = Ok g -> url g = lib_url r.
Proof.
  unfold to_search_result. destruct advanced, r; intros [= <-]; reflexivity.
Qed.

Lemma converted_urls (advanced : bool) (items : list LibResult)
  (found : list GoogleSearchResult) :
  mapM (to_search_result advanced) items = Ok found ->
  map url found = map lib_url items.
Proof.
  revert found. induction items as [|r items IH]; intros found; cbn [mapM].
  - intros [= <-]. reflexivity.
  - destruct (to_search_result advanced r) as [g|] eqn:Hg; cbn [bind]; [|discriminate].
    destruct (mapM (to_search_result advanced) items) as [gs|]; cbn [bind]; [|discriminate].
    intros [= <-]. cbn [map]. rewrite (to_search_result_url _ _ _ Hg), (IH gs eq_refl).
    reflexivity.
Qed.

(** [google_search] returns one result per item the generator yields, in
    the same order and with the same URLs; [result_count] is their number.
    [max_results] is handed to the generator and not enforced by the tool. *)
Theorem search_results_follow_generator (query language : string)
  (max_results start_number : Z) (advanced unique : bool) (found : GoogleSearchResults) :
  google_search W query max_results start_number language advanced unique = Ok found ->
  let run := web_search W query max_results language advanced start_number unique in
  map url (results found) = map lib_url (yielded run) /\
  result_count found = Z.of_nat (List.length (results found)) /\
  List.length (results found) = List.length (yielded run).
Proof.
  unfold google_search. cbv zeta.
  destruct (mapM _ _) as [items|] eqn:Hitems; cbn [bind]; [|discriminate].
  destruct (failure _); [discriminate|]. intros [= <-]. cbn [results result_count].
  split; [apply (converted_urls advanced), Hitems|]. split; [reflexivity|].
  apply (mapM_length _ _ _ Hitems).
Qed.

Lemma plain_results_untitled (items : list LibResult) (found : list GoogleSearchResult) :
  mapM (to_search_result false) items = Ok found ->
  Forall (fun r => title r = None /\ description r = None) found.
Proof.
  revert found. induction items as [|r items IH]; intros found; cbn [mapM].
  - intros [= <-]. constructor.
  - destruct r as [u t d|u]; cbn [to_search_result bind]; [discriminate|].
    destruct (mapM (to_search_result false) items) as [gs|]; cbn [bind]; [|discriminate].
    intros [= <-]. constructor; [split; reflexivity | apply IH; reflexivity].
Qed.

(** Without [advanced] the results carry URLs only: every title and every
    description is [None], so every [r.title or ''] is the empty string. *)
Theorem plain_search_has_no_titles (query language : string)
  (max_results start_number : Z) (unique : bool) (found : GoogleSearchResults) :
  google_search W query max_results start_number language false unique = Ok found ->
  Forall (fun r => title r = None /\ description r = None) (results found) /\
  map title_or_empty (results found) =
    repeat EmptyString (List.length (results found)).
Proof.
  unfold google_search.
  destruct (mapM _ _) as [items|] eqn:Hitems; cbn [bind]; [|discriminate].
  destruct (failure _); [discriminate|]. intros [= <-]. cbn [results].
  pose proof (plain_results_untitled _ _ Hitems) as Hall.
  split; [exact Hall|].
  clear Hitems. induction Hall as [|r rest [Ht _] _ IH]; [reflexivity|].
  cbn [map List.length repeat]. unfold title_or_empty at 1. rewrite Ht, IH. reflexivity.
Qed.

(** For a lookup document that is a JSON object enrichment does not raise.
    A member that is present is taken as it is, whatever its type (a [null]
    name stays [None]); only an absent [Name] gives the symbol and only an
    absent [Sector] gives ["Unknown"]. *)
Theorem enrich_object_fields (sym s : string) (items : list (string * PyVal)) :
  json_loads s = Ok (PyDict items) ->
  exists name sec : PyVal,
    enrich json_loads sym (PyStr s) = Ok (name, sec) /\
    (forall v, dict_lookup "Name" items = Some v -> name = v) /\
    (dict_lookup "Name" items = None -> name = PyStr sym) /\
    (forall v, dict_lookup "Sector" items = Some v -> sec = v) /\
    (dict_lookup "Sector" items = None -> sec = PyStr "Unknown").
Proof.
  intros Hs. rewrite enrich_cases, Hs. do 2 eexists. split; [reflexivity|].
  destruct (dict_lookup "Name" items), (dict_lookup "Sector" items);
    repeat split; intros; congruence.
Qed.

End AdapterEdges.

(** ** The loop and the ranker as a whole *)

Section Whole.

Variable json_loads : string -> result PyVal.
Variable W : Adapters.

(** Every candidate ends in exactly one of three ways: a record, a log
    line, or the silent [continue]; and the progress bar advances once per
    candidate on each of them. *)
Theorem every_candidate_accounted_for (universe : list string) :
  let st := run_loop json_loads W universe in
  let skipped :=
    filter (fun sym => match analyze json_loads W sym with
                       | Ok None => true
                       | _ => false
                       end) universe in
  advanced_by st = List.length universe /\
  (List.length (recommendations st) + List.length (error_log st)
   + List.length skipped = List.length universe)%nat.
Proof.
  cbv zeta. rewrite run_loop_spec. cbn [advanced_by recommendations error_log].
  split; [reflexivity|].
  induction universe as [|sym universe IH]; [reflexivity|].
  cbn [flat_map filter]. rewrite !length_app. unfold records_of at 1, errors_of at 1.
  destruct (analyze json_loads W sym) as [[rec|]|e]; cbn [List.length]; lia.
Qed.

(** The loop can be run in chunks: the records and the log of a universe
    cut in two are those of the first part followed by those of the second. *)
Theorem records_concatenate (first second : list string) :
  recommendations (run_loop json_loads W (first ++ second)) =
    recommendations (run_loop json_loads W first)
    ++ recommendations (run_loop json_loads W second) /\
  error_log (run_loop json_loads W (first ++ second)) =
    error_log (run_loop json_loads W first)
    ++ error_log (run_loop json_loads W second).
Proof.
  rewrite !run_loop_spec. cbn [recommendations error_log].
  rewrite !flat_map_app. split; reflexivity.
Qed.

Lemma score_titles_ok (sym : string) (titles : list PyVal) (s : Sentiment) :
  score_titles sym titles = Ok s ->
  forallb is_str titles = true /\
  total_headlines s = Z.of_nat (List.length titles) /\
  sample_headlines s = firstn 3 titles /\
  (-1 <= sentiment_score s <= 1)%Q.
Proof.
  intros Hs. destruct (forallb is_str titles) eqn:Hall.
  - split; [reflexivity|].
    destruct (all_strings_map titles Hall) as [items ->].
    rewrite score_titles_strings in Hs. injection Hs as <-.
    cbn [total_headlines sample_headlines sentiment_score].
    rewrite length_map. split; [reflexivity|]. split; [reflexivity|].
    destruct (Z.ltb_spec 0 (Z.of_nat (List.length items))) as [Hpos|_].
    + apply quotient_bounds; [exact Hpos|].
      pose proof (mention_count_bounds positive_words items).
      pose proof (mention_count_bounds negative_words items). lia.
    + split; discriminate.
  - unfold score_titles, positive_words in Hs.
    rewrite (count_hits_non_string _ _ titles Hall) in Hs. discriminate.
Qed.

Lemma analyze_record (sym : string) (r : StockRecommendation) :
  analyze json_loads W sym = Ok (Some r) ->
  exists (titles : list PyVal) (s : Sentiment) (ns : PyVal * PyVal),
    score_titles sym titles = Ok s /\
    titles <> [] /\
    r = mkStockRecommendation sym (fst ns) 0 (sentiment_score s)
          (mkReasoning (sentiment_score s) (sample_headlines s))
          (snd ns) None None None None.
Proof.
  unfold analyze, get_headline_sentiment.
  destruct (collect_titles W sym) as [titles|]; cbn [bind]; [|discriminate].
  destruct (score_titles sym titles) as [s|] eqn:Hs; cbn [bind]; [|discriminate].
  destruct (total_headlines s =? 0) eqn:Ht; [discriminate|].
  destruct (get_company_info W sym) as [ci|]; cbn [bind]; [|discriminate].
  destruct (enrich json_loads sym ci) as [ns|]; cbn [bind]; [|discriminate].
  intros [= <-]. exists titles, s, ns. split; [exact Hs|]. split; [|reflexivity].
  intros ->. apply score_titles_ok in Hs as [_ [Hlen _]].
  rewrite Hlen in Ht. discriminate.
Qed.

(** Every emitted record is for a symbol of the universe, has a score in
    [(0, 1]], carries that same score in its reasoning together with one to
    three sample headlines that are all strings, and has the price at [0.0]
    and every optional field empty. *)
Theorem emitted_record_shape (universe : list string) (top_n : Z) :
  Forall (fun r =>
            In (symbol r) universe /\
            (0 < confidence_score r <= 1)%Q /\
            reasoning_score (reasoning r) = confidence_score r /\
            (1 <= List.length (reasoning_sample (reasoning r)) <= 3)%nat /\
            forallb is_str (reasoning_sample (reasoning r)) = true /\
            current_price r = 0%Q /\
            market_cap r = None /\ pe_ratio r = None /\
            news_sentiment r = None /\ trend_alignment r = None)
         (generate_recommendations json_loads W universe top_n).
Proof.
  apply Forall_forall. intros r Hin. apply in_rank in Hin as [Hin Hpos].
  apply in_recommendations in Hin as [Huni Ha]. split; [exact Huni|].
  apply analyze_record in Ha as [titles [s [ns [Hs [Hne Hr]]]]].
  apply score_titles_ok in Hs as [Hall [_ [Hsample [_ Hle]]]].
  rewrite Hr in Hpos |- *.
  cbn [confidence_score reasoning reasoning_score reasoning_sample current_price
       market_cap pe_ratio news_sentiment trend_alignment] in *.
  split; [split; assumption|]. split; [reflexivity|].
  rewrite Hsample. split; [|split; [|repeat split]].
  - rewrite length_firstn. destruct titles; [congruence | cbn [List.length]; lia].
  - clear -Hall. destruct titles as [|a [|b [|c rest]]]; cbn [firstn forallb] in *;
      try exact Hall.
    rewrite !andb_true_iff in Hall. rewrite !andb_true_iff. tauto.
Qed.

(** ** More on the ranker *)

Lemma sort_desc_fixes_sorted {A : Type} (key : A -> Q) (l : list A) :
  StronglySorted (desc key) l -> sort_desc key l = l.
Proof.
  induction 1 as [|x l Hs IH Hall]; [reflexivity|].
  cbn [sort_desc]. rewrite IH. destruct l as [|y l]; [reflexivity|].
  cbn [insert_desc]. inversion Hall as [|? ? Hxy _]; subst.
  unfold desc in Hxy. apply Qle_bool_iff in Hxy. rewrite Hxy. reflexivity.
Qed.

Lemma filter_all_positive (recs : list StockRecommendation) :
  Forall (fun r => (0 < confidence_score r)%Q) recs ->
  filter is_positive recs = recs.
Proof.
  induction 1 as [|r recs Hr _ IH]; [reflexivity|].
  cbn [filter]. unfold is_positive at 1.
  destruct (Qle_bool (confidence_score r) 0) eqn:Hle.
  - apply Qle_bool_iff in Hle. exfalso. apply (Qlt_not_le _ _ Hr). exact Hle.
  - cbn [negb]. rewrite IH. reflexivity.
Qed.

Lemma rank_sorted (recs : list StockRecommendation) (top_n : Z) :
  StronglySorted (desc confidence_score) (rank recs top_n).
Proof.
  destruct (rank_prefix recs top_n) as [rest Hrest].
  apply (sorted_prefix confidence_score _ rest). rewrite <- Hrest.
  apply sort_desc_sorted.
Qed.

(** Ranking is idempotent for a non-negative [top_n]: ranking a ranked
    list again changes nothing. *)
Theorem rank_idempotent (recs : list StockRecommendation) (top_n : Z) :
  0 <= top_n ->
  rank (rank recs top_n) top_n = rank recs top_n.
Proof.
  intros Hn. set (out := rank recs top_n).
  assert (Hpos : Forall (fun r => (0 < confidence_score r)%Q) out).
  { apply Forall_forall. intros r Hin. apply (in_rank recs top_n r Hin). }
  assert (Hlen : Z.of_nat (List.length out) <= top_n).
  { subst out. rewrite rank_length. cbv zeta.
    apply Z.leb_le in Hn. rewrite Hn. apply Z.le_min_l. }
  unfold rank at 1. rewrite (filter_all_positive out Hpos).
  rewrite (sort_desc_fixes_sorted confidence_score out (rank_sorted recs top_n)).
  unfold slice_to. apply Z.leb_le in Hn. rewrite Hn.
  apply firstn_all2. lia.
Qed.

(** A shorter list is the head of a longer one: for [0 <= m <= n] the top
    [m] are the first [m] of the top [n]. *)
Theorem rank_top_of_top (recs : list StockRecommendation) (m n : Z) :
  0 <= m <= n ->
  rank recs m = firstn (Z.to_nat m) (rank recs n).
Proof.
  intros [Hm Hmn]. unfold rank, slice_to.
  assert (Hn : 0 <= n) by lia.
  apply Z.leb_le in Hm as ->. apply Z.leb_le in Hn as ->.
  rewrite firstn_firstn. f_equal. lia.
Qed.

(** The ranker keeps the best: the positive records it leaves out are
    exactly the rest of the positive records, and none of them has a higher
    score than any record it emits. *)
Theorem omitted_score_no_higher (recs : list StockRecommendation) (top_n : Z) :
  exists omitted : list StockRecommendation,
    Permutation (rank recs top_n ++ omitted) (filter is_positive recs) /\
    (forall a b, In a (rank recs top_n) -> In b omitted ->
                 (confidence_score b <= confidence_score a)%Q).
Proof.
  destruct (rank_prefix recs top_n) as [rest Hrest]. exists rest. split.
  - rewrite <- Hrest. apply sort_desc_perm.
  - pose proof (sort_desc_sorted confidence_score (filter is_positive recs)) as Hs.
    rewrite Hrest in Hs. clear Hrest.
    induction (rank recs top_n) as [|x out IH]; intros a b Ha Hb; [destruct Ha|].
    cbn [app] in Hs. inversion Hs as [|? ? Hs' Hall]; subst.
    destruct Ha as [<- | Ha].
    + rewrite Forall_app in Hall. destruct Hall as [_ Hall].
      rewrite Forall_forall in Hall. apply (Hall b Hb).
    + apply (IH Hs' a b Ha Hb).
Qed.

(** ** The saved document *)

(** [save_recommendations] writes every field of a recommendation except
    [news_sentiment]: two recommendations get the same entry exactly when
    they agree on the nine written fields. *)
Theorem saved_entry_drops_news_sentiment (r1 r2 : StockRecommendation) :
  saved_entry r1 = saved_entry r2 <->
  symbol r1 = symbol r2 /\ company_name r1 = company_name r2 /\
  current_price r1 = current_price r2 /\
  confidence_score r1 = confidence_score r2 /\
  reasoning r1 = reasoning r2 /\ sector r1 = sector r2 /\
  market_cap r1 = market_cap r2 /\ pe_ratio r1 = pe_ratio r2 /\
  trend_alignment r1 = trend_alignment r2.
Proof.
  unfold saved_entry. split.
  - intros Heq. injection Heq as H1 H2 H3 H4 H5 H6 H7 H8 H9. repeat split; assumption.
  - intros (-> & -> & -> & -> & -> & -> & -> & -> & ->). reflexivity.
Qed.

Lemma saved_entries_injective (l1 l2 : list StockRecommendation) :
  Forall (fun r => news_sentiment r = None) l1 ->
  Forall (fun r => news_sentiment r = None) l2 ->
  map saved_entry l1 = map saved_entry l2 -> l1 = l2.
Proof.
  intros H1. revert l2. induction H1 as [|r1 l1 Hr1 _ IH]; intros l2 H2 Heq.
  - destruct l2; [reflexivity | discriminate].
  - destruct l2 as [|r2 l2]; [discriminate|].
    inversion H2 as [|? ? Hr2 H2']; subst. cbn [map] in Heq.
    injection Heq as E1 E2 E3 E4 E5 E6 E7 E8 E9 Hrest.
    f_equal; [|apply IH; assumption].
    destruct r1, r2. cbn in *. congruence.
Qed.

End Whole.

(** ** The keyword sentiment of the news tool *)

Lemma word_hits_bounds (words : list string) (title : string) :
  0 <= word_hits words title <= Z.of_nat (List.length words).
Proof.
  induction words as [|word words IH]; cbn [word_hits List.length]; [lia|].
  destruct (contains word title); lia.
Qed.

Lemma count_articles_bounds (articles : list PyVal) (p n p' n' : Z) :
  count_articles articles p n = Ok (p', n') ->
  p <= p' <= p + 8 * Z.of_nat (List.length articles) /\
  n <= n' <= n + 8 * Z.of_nat (List.length articles).
Proof.
  revert p n. induction articles as [|a articles IH]; intros p n; cbn [count_articles].
  - intros [= <- <-]. cbn [List.length]. lia.
  - destruct (py_get a "title" (PyStr EmptyString)) as [t|]; cbn [bind]; [|discriminate].
    destruct (py_lower t) as [title|]; cbn [bind]; [|discriminate].
    intros Hrest. apply IH in Hrest.
    pose proof (word_hits_bounds market_positive_words title) as Hp.
    pose proof (word_hits_bounds market_negative_words title) as Hn.
    cbn [market_positive_words market_negative_words List.length] in Hp, Hn.
    cbn [List.length]. lia.
Qed.

Lemma count_articles_raises (articles : list PyVal) (p n : Z) :
  forallb has_text_title articles = false ->
  count_articles articles p n = Raise AttributeError.
Proof.
  revert p n. induction articles as [|a articles IH]; intros p n; [discriminate|].
  cbn [forallb count_articles]. unfold has_text_title at 1.
  destruct (py_get a "title" (PyStr EmptyString)) as [t|e] eqn:Hget; cbn [bind].
  - destruct t; cbn [andb py_lower bind]; try reflexivity.
    intros Hrest. apply IH. exact Hrest.
  - intros _. destruct a; cbn in Hget; try discriminate; congruence.
Qed.

Lemma chars_length (s : string) : List.length (chars s) = String.length s.
Proof.
  induction s as [|c s IH]; [reflexivity|]. cbn. rewrite IH. reflexivity.
Qed.

Lemma py_len_of_iter (x : PyVal) (items : list PyVal) :
  py_iter x = Ok items -> py_len x = Ok (Z.of_nat (List.length items)).
Proof.
  destruct x; cbn [py_iter py_len]; try discriminate; intros [= <-].
  - rewrite chars_length. reflexivity.
  - reflexivity.
  - rewrite length_map. reflexivity.
Qed.

Lemma data_set_forall (P : string * KeywordSentiment -> Prop)
  (k : string) (e : KeywordSentiment) (data : list (string * KeywordSentiment)) :
  P (k, e) -> Forall P data -> Forall P (data_set k e data).
Proof.
  intros Hke. induction 1 as [|[k' e'] data Hhd Htl IH]; cbn [data_set].
  - repeat constructor. exact Hke.
  - destruct (String.eqb k k'); constructor; assumption.
Qed.

Lemma data_set_keys (k : string) (e : KeywordSentiment)
  (data : list (string * KeywordSentiment)) (k' : string) :
  In k' (map fst (data_set k e data)) -> k' = k \/ In k' (map fst data).
Proof.
  induction data as [|[k0 e0] data IH]; cbn [data_set map fst In].
  - intros [<- | []]. left. reflexivity.
  - destruct (String.eqb_spec k k0) as [-> | Hneq]; cbn [map fst In].
    + intros [<- | Hin]; [left; reflexivity | right; right; exact Hin].
    + intros [<- | Hin]; [right; left; reflexivity|].
      destruct (IH Hin) as [-> | Hin']; [left; reflexivity | right; right; exact Hin'].
Qed.

Lemma data_set_nodup (k : string) (e : KeywordSentiment)
  (data : list (string * KeywordSentiment)) :
  NoDup (map fst data) -> NoDup (map fst (data_set k e data)).
Proof.
  induction data as [|[k0 e0] data IH]; cbn [data_set map fst].
  - intros _. repeat constructor. intros [].
  - intros Hnd. apply NoDup_cons_iff in Hnd as [Hfresh Hnd].
    destruct (String.eqb_spec k k0) as [-> | Hneq]; cbn [map fst].
    + apply NoDup_cons; assumption.
    + apply NoDup_cons; [|apply IH, Hnd].
      intros Hin. apply data_set_keys in Hin as [-> | Hin]; [congruence | contradiction].
Qed.

Section MarketSentimentFacts.

Variable float_is_zero : string -> bool.
Variable W : Adapters.

Lemma data_ok_weaken (seen seen' : list string) (data : list (string * KeywordSentiment)) :
  incl seen seen' -> data_ok seen data -> data_ok seen' data.
Proof.
  intros Hincl [Hnd Hall]. split; [exact Hnd|].
  eapply Forall_impl; [|exact Hall]. intros ke [Hin He]. split; [apply Hincl, Hin | exact He].
Qed.

Lemma keyword_step_ok (seen : list string) (data data' : list (string * KeywordSentiment))
  (keyword : string) :
  data_ok seen data ->
  keyword_step float_is_zero W data keyword = Ok data' ->
  data_ok (keyword :: seen) data'.
Proof.
  intros Hok. unfold keyword_step.
  assert (Hweak : data_ok (keyword :: seen) data).
  { apply (data_ok_weaken seen); [apply incl_tl, incl_refl | exact Hok]. }
  destruct (py_truthy float_is_zero (get_trending_news W keyword 3));
    [|intros [= <-]; exact Hweak].
  destruct (py_iter (get_trending_news W keyword 3)) as [items|] eqn:Hiter;
    cbn [bind]; [|discriminate].
  destruct (count_articles items 0 0) as [[p n]|] eqn:Hcount; cbn [bind]; [|discriminate].
  rewrite (py_len_of_iter _ _ Hiter). cbn [bind fst snd].
  destruct (Z.ltb_spec 0 (Z.of_nat (List.length items))) as [Hpos|_];
    [|intros [= <-]; exact Hweak].
  intros [= <-]. destruct Hweak as [Hnd Hall]. split; [apply data_set_nodup, Hnd|].
  apply data_set_forall; [|exact Hall]. cbn [fst snd]. split; [left; reflexivity|].
  apply count_articles_bounds in Hcount.
  unfold entry_in_range. cbn [articles_count positive_count negative_count k_score].
  split; [exact Hpos|]. split; [lia|]. split; [lia|]. split; [reflexivity|].
  set (T := Z.of_nat (List.length items)) in *.
  rewrite (quotient_as_fraction _ T Hpos). unfold Qle. cbn [Qnum Qden].
  rewrite Z2Pos.id by exact Hpos. lia.
Qed.

Lemma keyword_loop_ok (keywords seen : list string)
  (data data' : list (string * KeywordSentiment)) :
  data_ok seen data ->
  keyword_loop float_is_zero W keywords data = Ok data' ->
  data_ok (rev keywords ++ seen) data'.
Proof.
  revert seen data. induction keywords as [|k keywords IH]; intros seen data Hok;
    cbn [keyword_loop rev].
  - intros [= <-]. exact Hok.
  - destruct (keyword_step float_is_zero W data k) as [data1|] eqn:Hstep;
      cbn [bind]; [|discriminate].
    intros Hloop. rewrite <- app_assoc. cbn [app].
    apply (IH (k :: seen) data1); [|exact Hloop].
    apply (keyword_step_ok seen data); assumption.
Qed.

(** What [get_market_sentiment] returns has one entry per keyword at most,
    each for a keyword that was asked for and each with at least one
    article.  Since every lexicon word found in a title counts, a counter
    can reach eight times the number of articles and the score lies in
    [[-8, 8]], not in [[-1, 1]]. *)
Theorem market_sentiment_entries (keywords : list string)
  (data : list (string * KeywordSentiment)) :
  get_market_sentiment float_is_zero W keywords = Ok data ->
  NoDup (map fst data) /\
  Forall (fun ke => In (fst ke) keywords /\ entry_in_range (snd ke)) data.
Proof.
  unfold get_market_sentiment. destruct (news_enabled W); cbn [negb].
  - intros Hloop.
    assert (Hinit : data_ok [] []) by (split; constructor).
    destruct (keyword_loop_ok keywords [] [] data Hinit Hloop) as [Hnd Hall].
    split; [exact Hnd|]. eapply Forall_impl; [|exact Hall].
    intros ke [Hin He]. split; [|exact He].
    rewrite app_nil_r in Hin. apply in_rev. exact Hin.
  - intros [= <-]. split; constructor.
Qed.

Lemma keyword_step_without_news (data : list (string * KeywordSentiment)) (keyword : string) :
  get_trending_news W keyword 3 = PyList [] ->
  keyword_step float_is_zero W data keyword = Ok data.
Proof.
  intros Hnews. unfold keyword_step. rewrite Hnews. reflexivity.
Qed.

(** With the tool disabled, or with every request failing, the result is
    the empty dict: no keyword gets an entry and nothing is raised. *)
Theorem market_sentiment_without_news (keywords : list string) :
  (news_enabled W = false \/
   forall k, In k keywords -> exists e, news_http W k 3 = Raise e) ->
  get_market_sentiment float_is_zero W keywords = Ok [].
Proof.
  unfold get_market_sentiment. intros [-> | Hfail]; [reflexivity|].
  destruct (news_enabled W); [|reflexivity]. cbn [negb].
  induction keywords as [|k keywords IH]; [reflexivity|].
  cbn [keyword_loop].
  rewrite keyword_step_without_news.
  - cbn [bind]. apply IH. intros k' Hin. apply Hfail. right. exact Hin.
  - apply news_adapter_guarded. right. apply Hfail. left. reflexivity.
Qed.

Lemma keyword_loop_raises (before after : list string) (k : string)
  (data : list (string * KeywordSentiment)) :
  (forall d, exists e, keyword_step float_is_zero W d k = Raise e) ->
  exists e, keyword_loop float_is_zero W (before ++ k :: after) data = Raise e.
Proof.
  intros Hk. revert data. induction before as [|b before IH]; intros data;
    cbn [app keyword_loop].
  - destruct (Hk data) as [e He]. exists e. rewrite He. reflexivity.
  - destruct (keyword_step float_is_zero W data b) as [data1|e1]; cbn [bind].
    + apply IH.
    + exists e1. reflexivity.
Qed.

(** [get_market_sentiment] has no guard of its own: one article without a
    string title, under any one keyword, makes the whole call raise, and
    the entries of the keywords before it are lost. *)
Theorem market_sentiment_unguarded (before after : list string) (k : string)
  (body : list (string * PyVal)) (articles : list PyVal) :
  news_enabled W = true ->
  news_http W k 3 = Ok (PyDict body) ->
  dict_lookup "articles" body = Some (PyList articles) ->
  forallb has_text_title articles = false ->
  exists e, get_market_sentiment float_is_zero W (before ++ k :: after) = Raise e.
Proof.
  intros Hen Hbody Hv Hbad. unfold get_market_sentiment. rewrite Hen. cbn [negb].
  apply keyword_loop_raises. intros d. exists AttributeError.
  unfold keyword_step.
  rewrite (trending_news_member W k 3 body _ Hen Hbody Hv).
  destruct articles as [|a articles]; [discriminate|].
  cbn [py_truthy py_iter bind].
  rewrite (count_articles_raises (a :: articles) 0 0 Hbad). reflexivity.
Qed.

End MarketSentimentFacts.

(** ** Across two runs *)

Lemma emitted_without_news_sentiment (json_loads : string -> result PyVal)
  (W : Adapters) (universe : list string) (top_n : Z) :
  Forall (fun r => news_sentiment r = None)
         (generate_recommendations json_loads W universe top_n).
Proof.
  apply Forall_forall. intros r Hin. apply in_rank in Hin as [Hin _].
  apply in_recommendations in Hin as [_ Ha].
  apply analyze_record in Ha as [titles [s [ns [_ [_ ->]]]]]. reflexivity.
Qed.

(** Nothing the pipeline produces is lost on saving: two runs that write
    the same document have produced the same list of recommendations. *)
Theorem saved_document_determines_output
  (json_loads json_loads' : string -> result PyVal) (W W' : Adapters)
  (universe universe' : list string) (top_n top_n' : Z) (timestamp timestamp' : string) :
  save_document timestamp (generate_recommendations json_loads W universe top_n) =
  save_document timestamp' (generate_recommendations json_loads' W' universe' top_n') ->
  timestamp = timestamp' /\
  generate_recommendations json_loads W universe top_n =
  generate_recommendations json_loads' W' universe' top_n'.
Proof.
  unfold save_document. intros [= Htime Hentries]. split; [exact Htime|].
  apply saved_entries_injective; [| |exact Hentries];
    apply emitted_without_news_sentiment.
Qed.

(** A response body that is not an object, or an object without an
    [articles] member, gives the empty list: the first through the guard
    of [get_trending_news], the second through the default of [.get]. *)
Theorem trending_news_empty_on_bad_body (W : Adapters) (query : string)
  (days_back : Z) (body : PyVal) :
  news_http W query days_back = Ok body ->
  (is_dict body = false \/
   exists items, body = PyDict items /\ dict_lookup "articles" items = None) ->
  get_trending_news W query days_back = PyList [].
Proof.
  intros Hbody Hbad. unfold get_trending_news. rewrite Hbody.
  destruct (news_enabled W); cbn [negb]; [|reflexivity].
  destruct Hbad as [Hnot | [items [-> Hmiss]]].
  - destruct body; try discriminate; reflexivity.
  - cbn. rewrite Hmiss. reflexivity.
Qed.

(** ** The further properties on the concrete environments *)

Lemma score_case_insensitive_witness :
  map lower ["PROFIT Falls"] = map lower ["profit falls"] /\
  exists s s' : Sentiment,
    score_titles "AAA" (map PyStr ["PROFIT Falls"]) = Ok s /\
    score_titles "AAA" (map PyStr ["profit falls"]) = Ok s' /\
    positive_headlines s = positive_headlines s' /\
    negative_headlines s = negative_headlines s' /\
    total_headlines s = total_headlines s' /\
    sentiment_score s = sentiment_score s'.
Proof.
  split; [reflexivity|].
  apply (score_case_insensitive "AAA" ["PROFIT Falls"] ["profit falls"]). reflexivity.
Defined.

Lemma score_order_independent_witness :
  Permutation ["Shares gain"; "Outlook weak"] ["Outlook weak"; "Shares gain"] /\
  exists s s' : Sentiment,
    score_titles "AAA" (map PyStr ["Shares gain"; "Outlook weak"]) = Ok s /\
    score_titles "AAA" (map PyStr ["Outlook weak"; "Shares gain"]) = Ok s' /\
    positive_headlines s = positive_headlines s' /\
    negative_headlines s = negative_headlines s' /\
    total_headlines s = total_headlines s' /\
    sentiment_score s = sentiment_score s'.
Proof.
  split; [apply perm_swap|].
  apply (score_order_independent "AAA" ["Shares gain"; "Outlook weak"]
           ["Outlook weak"; "Shares gain"]).
  apply perm_swap.
Defined.

Lemma score_is_one_iff_witness :
  (sentiment_score (mkSentiment "AAA" 2 0 2 (2 # 2)
                      [PyStr "Shares gain"; PyStr "Record profit"]) == 1)%Q <->
  forallb (mentions positive_words) ["Shares gain"; "Record profit"] = true /\
  existsb (mentions negative_words) ["Shares gain"; "Record profit"] = false.
Proof.
  apply (score_is_one_iff "AAA" ["Shares gain"; "Record profit"]).
  - discriminate.
  - reflexivity.
Defined.

Lemma positive_headline_never_lowers_witness :
  mentions positive_words "Shares gain" = true /\
  mentions negative_words "Shares gain" = false /\
  exists s s' : Sentiment,
    score_titles "AAA" (map PyStr ["Outlook weak"]) = Ok s /\
    score_titles "AAA" (map PyStr ("Shares gain" :: ["Outlook weak"])) = Ok s' /\
    (sentiment_score s <= sentiment_score s')%Q.
Proof.
  split; [reflexivity|]. split; [reflexivity|].
  apply (positive_headline_never_lowers "AAA" "Shares gain" ["Outlook weak"]);
    reflexivity.
Defined.

Lemma neutral_headline_dilutes_witness :
  mentions positive_words "Annual meeting held" = false /\
  mentions negative_words "Annual meeting held" = false /\
  exists s s' : Sentiment,
    score_titles "AAA" (map PyStr ["Shares gain"]) = Ok s /\
    score_titles "AAA" (map PyStr ("Annual meeting held" :: ["Shares gain"])) = Ok s' /\
    ((0 <= sentiment_score s)%Q -> (0 <= sentiment_score s' <= sentiment_score s)%Q) /\
    ((sentiment_score s <= 0)%Q -> (sentiment_score s <= sentiment_score s' <= 0)%Q).
Proof.
  split; [reflexivity|]. split; [reflexivity|].
  apply (neutral_headline_dilutes "AAA" "Annual meeting held" ["Shares gain"]);
    reflexivity.
Defined.

Lemma non_iterable_articles_abort_witness :
  news_http edge_world "NONE" 5
    = Ok (PyDict [("status", PyStr "ok"); ("articles", PyNone)]) /\
  get_headline_sentiment edge_world "NONE" = Raise TypeError /\
  records_of RefJson.loads edge_world "NONE" = [] /\
  errors_of RefJson.loads edge_world "NONE" = [("NONE", TypeError)].
Proof.
  split; [reflexivity|].
  apply (non_iterable_articles_abort RefJson.loads edge_world "NONE"
           [("status", PyStr "ok"); ("articles", PyNone)] PyNone); reflexivity.
Defined.

Lemma non_object_article_aborts_witness :
  forallb is_dict [PyDict [("title", PyStr "BAD shares rise")]; PyStr "not an article"]
    = false /\
  get_headline_sentiment edge_world "BAD" = Raise AttributeError /\
  records_of RefJson.loads edge_world "BAD" = [] /\
  errors_of RefJson.loads edge_world "BAD" = [("BAD", AttributeError)].
Proof.
  split; [reflexivity|].
  apply (non_object_article_aborts RefJson.loads edge_world "BAD"
           [("articles", PyList [PyDict [("title", PyStr "BAD shares rise")];
                                 PyStr "not an article"])]
           [PyDict [("title", PyStr "BAD shares rise")]; PyStr "not an article"]);
    reflexivity.
Defined.

Lemma sentiment_fails_only_with_search_witness :
  news_http demo_world "GGG" 5 = Raise (RaisedBy "requests.ConnectionError") /\
  (get_headline_sentiment demo_world "GGG" = Raise TypeError <->
   google_search demo_world "GGG stock news" 5 0 "en" true false = Raise TypeError).
Proof.
  split; [reflexivity|].
  apply (sentiment_fails_only_with_search demo_world "GGG" TypeError).
  right. exists (RaisedBy "requests.ConnectionError"). reflexivity.
Defined.

Lemma search_results_follow_generator_witness :
  google_search demo_world "MIX stock news" 1 0 "en" true false
    = Ok (mkGoogleSearchResults 2
            [mkGoogleSearchResult "https://example.org/mix/1" (Some "MIX profit up") None;
             mkGoogleSearchResult "https://example.org/mix/2" None None]) /\
  List.length
    (results (mkGoogleSearchResults 2
                [mkGoogleSearchResult "https://example.org/mix/1" (Some "MIX profit up") None;
                 mkGoogleSearchResult "https://example.org/mix/2" None None]))
  = List.length (yielded (web_search demo_world "MIX stock news" 1 "en" true 0 false)).
Proof.
  split; [reflexivity|].
  apply (search_results_follow_generator demo_world "MIX stock news" "en" 1 0 true false).
  reflexivity.
Defined.

Lemma plain_search_has_no_titles_witness :
  google_search edge_world "AI technology trends" 3 0 "en" false false
    = Ok (mkGoogleSearchResults 3
            [mkGoogleSearchResult "https://example.org/1" None None;
             mkGoogleSearchResult "https://example.org/2" None None;
             mkGoogleSearchResult "https://example.org/3" None None]) /\
  Forall (fun r => title r = None /\ description r = None)
    [mkGoogleSearchResult "https://example.org/1" None None;
     mkGoogleSearchResult "https://example.org/2" None None;
     mkGoogleSearchResult "https://example.org/3" None None].
Proof.
  split; [reflexivity|].
  apply (plain_search_has_no_titles edge_world "AI technology trends" "en" 3 0 false
           (mkGoogleSearchResults 3
              [mkGoogleSearchResult "https://example.org/1" None None;
               mkGoogleSearchResult "https://example.org/2" None None;
               mkGoogleSearchResult "https://example.org/3" None None])).
  reflexivity.
Defined.

Lemma enrich_object_fields_witness :
  edge_company_info "XYZ" = Ok (PyStr ("{" ++ dq ++ "Name" ++ dq ++ ": null, " ++ dq
                                  ++ "name" ++ dq ++ ": " ++ dq ++ "lower-case key"
                                  ++ dq ++ "}"))%string /\
  exists name sec : PyVal,
    enrich RefJson.loads "XYZ"
      (PyStr ("{" ++ dq ++ "Name" ++ dq ++ ": null, " ++ dq ++ "name" ++ dq ++ ": "
                  ++ dq ++ "lower-case key" ++ dq ++ "}"))%string = Ok (name, sec) /\
    (forall v, dict_lookup "Name" [("Name", PyNone); ("name", PyStr "lower-case key")]
               = Some v -> name = v) /\
    (dict_lookup "Name" [("Name", PyNone); ("name", PyStr "lower-case key")] = None ->
     name = PyStr "XYZ") /\
    (forall v, dict_lookup "Sector" [("Name", PyNone); ("name", PyStr "lower-case key")]
               = Some v -> sec = v) /\
    (dict_lookup "Sector" [("Name", PyNone); ("name", PyStr "lower-case key")] = None ->
     sec = PyStr "Unknown").
Proof.
  split; [reflexivity|].
  apply (enrich_object_fields RefJson.loads "XYZ" _
           [("Name", PyNone); ("name", PyStr "lower-case key")]).
  reflexivity.
Defined.

Lemma rank_idempotent_witness :
  0 <= 1 /\
  rank (rank (recommendations (run_loop RefJson.loads demo_world ["MIX"; "AAA"; "GGG"])) 1) 1
  = rank (recommendations (run_loop RefJson.loads demo_world ["MIX"; "AAA"; "GGG"])) 1.
Proof.
  split; [lia|].
  apply (rank_idempotent
           (recommendations (run_loop RefJson.loads demo_world ["MIX"; "AAA"; "GGG"])) 1).
  lia.
Defined.

Lemma rank_top_of_top_witness :
  0 <= 1 <= 2 /\
  rank (recommendations (run_loop RefJson.loads demo_world ["MIX"; "AAA"; "GGG"])) 1
  = firstn (Z.to_nat 1)
      (rank (recommendations (run_loop RefJson.loads demo_world ["MIX"; "AAA"; "GGG"])) 2).
Proof.
  split; [lia|].
  apply (rank_top_of_top
           (recommendations (run_loop RefJson.loads demo_world ["MIX"; "AAA"; "GGG"])) 1 2).
  lia.
Defined.

Lemma market_sentiment_entries_witness :
  get_market_sentiment mantissa_is_zero edge_world ["chips"; "rates"; "boom"; "chips"]
    = Ok [("chips", mkKeywordSentiment (2 # 2) 2 3 1);
          ("rates", mkKeywordSentiment 0 1 0 0);
          ("boom", mkKeywordSentiment 3 1 3 0)] /\
  NoDup (map fst [("chips", mkKeywordSentiment (2 # 2) 2 3 1);
                  ("rates", mkKeywordSentiment 0 1 0 0);
                  ("boom", mkKeywordSentiment 3 1 3 0)]).
Proof.
  split; [reflexivity|].
  apply (market_sentiment_entries mantissa_is_zero edge_world
           ["chips"; "rates"; "boom"; "chips"]).
  reflexivity.
Defined.

Lemma market_sentiment_without_news_witness :
  get_market_sentiment mantissa_is_zero edge_world ["oil"; "gold"] = Ok [].
Proof.
  apply (market_sentiment_without_news mantissa_is_zero edge_world ["oil"; "gold"]).
  right. intros k [<- | [<- | []]];
    exists (RaisedBy "requests.ConnectionError"); reflexivity.
Defined.

Lemma market_sentiment_unguarded_witness :
  forallb has_text_title [PyDict [("title", PyNone)]] = false /\
  exists e,
    get_market_sentiment mantissa_is_zero edge_world (["chips"] ++ "void" :: ["rates"])
    = Raise e.
Proof.
  split; [reflexivity|].
  apply (market_sentiment_unguarded mantissa_is_zero edge_world ["chips"] ["rates"] "void"
           [("status", PyStr "ok"); ("articles", PyList [PyDict [("title", PyNone)]])]
           [PyDict [("title", PyNone)]]); reflexivity.
Defined.

Lemma saved_document_determines_output_witness :
  save_document "2025-01-01T00:00:00"
    (generate_recommendations RefJson.loads demo_world ["AAA"; "BBB"] 10)
  = save_document "2025-01-01T00:00:00"
      (generate_recommendations RefJson.loads demo_world ["ERR"; "AAA"] 5) /\
  generate_recommendations RefJson.loads demo_world ["AAA"; "BBB"] 10
  = generate_recommendations RefJson.loads demo_world ["ERR"; "AAA"] 5.
Proof.
  split; [reflexivity|].
  apply (saved_document_determines_output RefJson.loads RefJson.loads
           demo_world demo_world ["AAA"; "BBB"] ["ERR"; "AAA"] 10 5
           "2025-01-01T00:00:00" "2025-01-01T00:00:00").
  reflexivity.
Defined.

Lemma trending_news_empty_on_bad_body_witness :
  news_http edge_world "quota" 5
    = Ok (PyDict [("status", PyStr "error"); ("code", PyStr "rateLimited")]) /\
  get_trending_news edge_world "quota" 5 = PyList [].
Proof.
  split; [reflexivity|].
  apply (trending_news_empty_on_bad_body edge_world "quota" 5
           (PyDict [("status", PyStr "error"); ("code", PyStr "rateLimited")]));
    [reflexivity|].
  right. eexists. split; reflexivity.
Defined.
